(** * Source-control provider: error classification and the GitHub provider

  A shallow embedding of
    - [packages/control-plane/src/source-control/errors.ts]
      (the class [SourceControlProviderError] and its three static
      methods), and
    - the GitHub provider ([GitHubSourceControlProvider]: [getRepository],
      [createPullRequest], [generatePushAuth], [addLabels], [requestReviewers]),
  followed by the properties of the classification contract.

  Conventions of the embedding.
    - A JavaScript string is a [string]; messages are taken over the
      ASCII alphabet, on which [toLowerCase] maps 'A'..'Z' to 'a'..'z' and
      leaves every other character as it is.
    - HTTP status codes and pull-request numbers are integers ([Z]); an
      optional parameter or field ([status?], [httpStatus?], [cause?]) is an
      [option], [None] standing for [undefined].
    - A value of type [unknown] is a [JsValue]; the test
      [error instanceof Error] is [asError].  An [Error] carries a [name]
      and a string [message], as its TypeScript interface declares.  The
      module [Untyped] repeats the classifier on values for which that does
      not hold, where it can raise. *)

From Stdlib Require Import Bool List ZArith NArith Ascii String Lia.
From Stdlib Require Import DecimalString.
Import ListNotations.

Local Open Scope string_scope.

(* ================================================================== *)
(** ** JavaScript strings *)

Module JsString.

(** The ASCII part of [String.prototype.toLowerCase]. *)
Definition lower_ascii (c : ascii) : ascii :=
  let n := N_of_ascii c in
  if ((65 <=? n) && (n <=? 90))%N then ascii_of_N (n + 32) else c.

Fixpoint toLowerCase (s : string) : string :=
  match s with
  | EmptyString => EmptyString
  | String c s' => String (lower_ascii c) (toLowerCase s')
  end.

(** [startsWith s p]: [p] is a prefix of [s]. *)
Fixpoint startsWith (s p : string) {struct p} : bool :=
  match p, s with
  | EmptyString, _ => true
  | String _ _, EmptyString => false
  | String b p', String a s' => Ascii.eqb a b && startsWith s' p'
  end.

(** [String.prototype.includes]: [sub] occurs somewhere in [s]. *)
Fixpoint includes (s sub : string) : bool :=
  startsWith s sub ||
  match s with
  | EmptyString => false
  | String _ s' => includes s' sub
  end.

(** Two strings that differ only in the case of their letters: same
    length, and position by position the same character up to case. *)
Fixpoint caseVariant (s t : string) : Prop :=
  match s, t with
  | EmptyString, EmptyString => True
  | String a s', String b t' => lower_ascii a = lower_ascii b /\ caseVariant s' t'
  | _, _ => False
  end.

(** [sub] occurs in [s] up to the case of the letters. *)
Definition containsIgnoringCase (s sub : string) : Prop :=
  exists pre mid post, s = pre ++ mid ++ post /\ caseVariant mid sub.

(** Decimal rendering of an integer, as a template literal does it. *)
Definition numberToString (z : Z) : string :=
  NilZero.string_of_int (Z.to_int z).

End JsString.

(* ================================================================== *)
(** ** errors.ts *)

Module Errors.
Import JsString.

(** [type SourceControlErrorType = "transient" | "permanent"] *)
Inductive SourceControlErrorType : Type :=
| transient
| permanent.

(** Instances of [Error].  A [SourceControlProviderError] extends [Error],
    so it is one of them; its optional [cause] is again an [Error]. *)
Inductive JsError : Type :=
| PlainError (name message : string)
| ProviderError (e : SourceControlProviderError)
with SourceControlProviderError : Type :=
| mkProviderError (message : string)
                  (errorType : SourceControlErrorType)
                  (httpStatus : option Z)
                  (cause : option JsError).

(** The fields that the constructor stores. *)
Definition message (e : SourceControlProviderError) : string :=
  match e with mkProviderError m _ _ _ => m end.
Definition errorType (e : SourceControlProviderError) : SourceControlErrorType :=
  match e with mkProviderError _ t _ _ => t end.
Definition httpStatus (e : SourceControlProviderError) : option Z :=
  match e with mkProviderError _ _ s _ => s end.
Definition cause (e : SourceControlProviderError) : option JsError :=
  match e with mkProviderError _ _ _ c => c end.

(** [this.name = "SourceControlProviderError"] *)
Definition errorName (e : JsError) : string :=
  match e with
  | PlainError n _ => n
  | ProviderError _ => "SourceControlProviderError"
  end.

Definition errorMessage (e : JsError) : string :=
  match e with
  | PlainError _ m => m
  | ProviderError p => message p
  end.

(** Values of type [unknown]: whatever a [catch] clause can bind. *)
Inductive JsValue : Type :=
| VUndefined
| VNull
| VBool (b : bool)
| VNumber (z : Z)
| VString (s : string)
| VObject
| VError (e : JsError).

(** [error instanceof Error ? error : undefined] *)
Definition asError (v : JsValue) : option JsError :=
  match v with
  | VError e => Some e
  | _ => None
  end.

(** [new Error(msg)] *)
Definition newError (msg : string) : JsValue := VError (PlainError "Error" msg).

(** [static isTransientStatus(status)] *)
Definition isTransientStatus (status : Z) : bool :=
  ((status =? 429) || (status =? 502) || (status =? 503) || (status =? 504))%Z.

(** [static isTransientNetworkError(error)] *)
Definition isTransientNetworkError (error : JsValue) : bool :=
  match asError error with
  | Some e =>
      let message := toLowerCase (errorMessage e) in
      includes message "fetch failed" ||
      includes message "etimedout" ||
      includes message "econnreset" ||
      includes message "econnrefused" ||
      includes message "network" ||
      includes message "timeout" ||
      includes message "aborted"
  | None => false
  end.

(** [static fromFetchError(message, error, status?)] *)
Definition fromFetchError (message : string) (error : JsValue)
           (status : option Z) : SourceControlProviderError :=
  match status with
  | Some status =>
      let errorType := if isTransientStatus status then transient else permanent in
      mkProviderError message errorType (Some status) (asError error)
  | None =>
      let errorType := if isTransientNetworkError error then transient else permanent in
      mkProviderError message errorType None (asError error)
  end.

(** The substrings that the message-driven classification looks for, in
    the order of the source. *)
Definition transientSubstrings : list string :=
  [ "fetch failed"; "etimedout"; "econnreset"; "econnrefused";
    "network"; "timeout"; "aborted" ].

(** The status codes that the status-driven classification retries. *)
Definition transientStatuses : list Z := [429; 502; 503; 504]%Z.

(** The raw error, whatever it is, is the [cause] of the classified error. *)
Definition causePreservesRawError (m : string) (e : JsValue) (s : option Z) : Prop :=
  option_map VError (cause (fromFetchError m e s)) = Some e.

End Errors.

(* ================================================================== *)
(** ** The world around the provider *)

Module Runtime.
Import JsString Errors.

(** How a statement or an awaited promise completes: with a value, or by
    throwing (a rejected promise throws at its [await]). *)
Inductive Completion (A : Type) : Type :=
| Normal (a : A)
| Throw (v : JsValue).
Arguments Normal {A} a.
Arguments Throw {A} v.

(** The property values of the objects handed to [JSON.stringify]. *)
Inductive JsonField : Type :=
| JString (s : string)
| JBool (b : bool)
| JStrings (l : list string).

(** A request body: the (flat) object that is serialised, property by
    property in insertion order. *)
Definition Json : Type := list (string * JsonField).

(** The second argument of [fetchWithTimeout]. *)
Record RequestInit : Type := mkRequestInit {
  method : string;
  headers : list (string * string);
  body : option Json
}.

(** The body of a created pull request, as [createPullRequest] reads it
    from [response.json()]. *)
Record PullRequestData : Type := mkPullRequestData {
  pr_number : Z;
  pr_html_url : string;
  pr_url : string;
  pr_state : string;
  pr_draft : bool;
  pr_merged : bool;
  pr_head_ref : string;
  pr_base_ref : string
}.

(** What the provider reads of a [Response]. *)
Record Response : Type := mkResponse {
  ok : bool;
  status : Z;
  text : Completion string;
  json : Completion PullRequestData
}.

(** What a call of [fetchWithTimeout] comes to: a response (of any status),
    or a rejection (network failure, timeout, abort). *)
Inductive FetchOutcome : Type :=
| Responded (r : Response)
| Rejected (reason : JsValue).

(** One call of [console.warn]. *)
Inductive ConsoleEntry : Type :=
| Warn (text : string) (rest : list JsValue).

Section World.

(** [GitHubProviderConfig["appConfig"]]: declared in [./types], opaque here. *)
Variable AppConfig : Type.

(** The environment of an execution.  [network] and [tokenMinter] script
    the outside world: what the [n]-th call of [fetchWithTimeout] and of
    [generateInstallationToken] comes to.  The two counters and the console
    record what the execution did. *)
Record World : Type := mkWorld {
  network : nat -> string -> RequestInit -> FetchOutcome;
  fetchCount : nat;
  tokenMinter : nat -> AppConfig -> Completion string;
  mintCount : nat;
  console : list ConsoleEntry
}.

(** An [async] function body: it runs in a world, completes normally or
    throws, and leaves a world. *)
Definition Async (A : Type) : Type := World -> Completion A * World.

Definition ret {A} (a : A) : Async A := fun w => (Normal a, w).

Definition throw {A} (v : JsValue) : Async A := fun w => (Throw v, w).

Definition bind {A B} (m : Async A) (k : A -> Async B) : Async B :=
  fun w =>
    match m w with
    | (Normal a, w') => k a w'
    | (Throw v, w') => (Throw v, w')
    end.

(** [try { m } catch (error) { handler }] *)
Definition tryCatch {A} (m : Async A) (handler : JsValue -> Async A) : Async A :=
  fun w =>
    match m w with
    | (Normal a, w') => (Normal a, w')
    | (Throw v, w') => handler v w'
    end.

(** [await p] for a promise that is already settled. *)
Definition await {A} (p : Completion A) : Async A := fun w => (p, w).

(** [fetchWithTimeout(url, init)]: imported from [auth/github-app]. *)
Definition fetchWithTimeout (url : string) (init : RequestInit) : Async Response :=
  fun w =>
    let w' := mkWorld (network w) (S (fetchCount w)) (tokenMinter w)
                      (mintCount w) (console w) in
    match network w (fetchCount w) url init with
    | Responded r => (Normal r, w')
    | Rejected reason => (Throw reason, w')
    end.

(** [generateInstallationToken(appConfig)]: imported from [auth/github-app]. *)
Definition generateInstallationToken (cfg : AppConfig) : Async string :=
  fun w =>
    (tokenMinter w (mintCount w) cfg,
     mkWorld (network w) (fetchCount w) (tokenMinter w)
             (S (mintCount w)) (console w)).

(** [console.warn(text, ...rest)] *)
Definition consoleWarn (text : string) (rest : list JsValue) : Async unit :=
  fun w =>
    (Normal tt,
     mkWorld (network w) (fetchCount w) (tokenMinter w) (mintCount w)
             (console w ++ [Warn text rest])).

End World.

Arguments network {AppConfig} w.
Arguments fetchCount {AppConfig} w.
Arguments tokenMinter {AppConfig} w.
Arguments mintCount {AppConfig} w.
Arguments console {AppConfig} w.
Arguments ret {AppConfig A} a w.
Arguments throw {AppConfig A} v w.
Arguments bind {AppConfig A B} m k w.
Arguments tryCatch {AppConfig A} m handler w.
Arguments await {AppConfig A} p w.
Arguments fetchWithTimeout {AppConfig} url init w.
Arguments generateInstallationToken {AppConfig} cfg w.
Arguments consoleWarn {AppConfig} text rest w.

(** [String(value)] *)
Definition toString (v : JsValue) : string :=
  match v with
  | VUndefined => "undefined"
  | VNull => "null"
  | VBool true => "true"
  | VBool false => "false"
  | VNumber z => numberToString z
  | VString s => s
  | VObject => "[object Object]"
  | VError e => errorName e ++ ": " ++ errorMessage e
  end.

End Runtime.

Declare Scope async_scope.
Delimit Scope async_scope with async.
Notation "x <- m ;; k" := (Runtime.bind m (fun x => k))
  (at level 61, m at next level, right associativity) : async_scope.
Notation "m ;;; k" := (Runtime.bind m (fun _ => k))
  (at level 61, right associativity) : async_scope.

(* ================================================================== *)
(** ** The GitHub provider *)

Module GitHub.
Import JsString Errors Runtime.
Local Open Scope async_scope.

(** User-Agent header for API requests. *)
Definition USER_AGENT : string := "Open-Inspect".

(** GitHub API base URL. *)
Definition GITHUB_API_BASE : string := "https://api.github.com".

(** [SourceControlAuthContext], as far as the provider reads it. *)
Record SourceControlAuthContext : Type := mkAuth {
  auth_token : string
}.

Record RepositoryRef : Type := mkRepositoryRef {
  owner : string;
  name : string
}.

(** [CreatePullRequestConfig], as far as the provider reads it; the
    optional members are options. *)
Record CreatePullRequestConfig : Type := mkCreatePullRequestConfig {
  title : string;
  cfg_body : string;
  sourceBranch : string;
  targetBranch : string;
  draft : option bool;
  repository : RepositoryRef;
  labels : option (list string);
  reviewers : option (list string)
}.

(** [CreatePullRequestResult["state"]] *)
Inductive PullRequestState : Type :=
| state_open
| state_closed
| state_merged
| state_draft.

Record CreatePullRequestResult : Type := mkCreatePullRequestResult {
  id : Z;
  webUrl : string;
  apiUrl : string;
  state : PullRequestState;
  res_sourceBranch : string;
  res_targetBranch : string
}.

Record GitPushAuthContext : Type := mkGitPushAuthContext {
  authType : string;
  token : string
}.

(** [config.draft] as a condition. *)
Definition truthy (b : option bool) : bool :=
  match b with
  | Some true => true
  | _ => false
  end.

(** [list && list.length > 0] *)
Definition requested (l : option (list string)) : bool :=
  match l with
  | Some (_ :: _) => true
  | _ => false
  end.

Definition elements (l : option (list string)) : list string :=
  match l with
  | Some l => l
  | None => []
  end.

(** The headers of the three POST requests. *)
Definition postHeaders (accessToken : string) : list (string * string) :=
  [ ("Accept", "application/vnd.github.v3+json");
    ("Authorization", "Bearer " ++ accessToken);
    ("User-Agent", USER_AGENT);
    ("Content-Type", "application/json") ].

(** The mapping of GitHub's [state], [draft] and [merged] to the state of
    the result (the [if] chain of [createPullRequest]). *)
Definition mapState (data : PullRequestData) : PullRequestState :=
  if pr_draft data then state_draft
  else if pr_merged data then state_merged
  else if String.eqb (pr_state data) "open" then state_open
  else if String.eqb (pr_state data) "closed" then state_closed
  else state_open.

Section Provider.

Variable AppConfig : Type.

(** [class GitHubSourceControlProvider]: its one private field. *)
Record GitHubSourceControlProvider : Type := mkProvider {
  appConfig : option AppConfig
}.

(** [constructor(config = {})] *)
Definition createGitHubProvider (config : option AppConfig) : GitHubSourceControlProvider :=
  mkProvider config.

Definition labelsUrl (owner repo : string) (prNumber : Z) : string :=
  GITHUB_API_BASE ++ "/repos/" ++ owner ++ "/" ++ repo ++ "/issues/"
    ++ numberToString prNumber ++ "/labels".

Definition reviewersUrl (owner repo : string) (prNumber : Z) : string :=
  GITHUB_API_BASE ++ "/repos/" ++ owner ++ "/" ++ repo ++ "/pulls/"
    ++ numberToString prNumber ++ "/requested_reviewers".

Definition pullsUrl (r : RepositoryRef) : string :=
  GITHUB_API_BASE ++ "/repos/" ++ owner r ++ "/" ++ name r ++ "/pulls".

(** [private async addLabels(accessToken, owner, repo, prNumber, labels)] *)
Definition addLabels (accessToken owner repo : string) (prNumber : Z)
           (labels : list string) : Async AppConfig unit :=
  tryCatch
    (response <- fetchWithTimeout (labelsUrl owner repo prNumber)
                   (mkRequestInit "POST" (postHeaders accessToken)
                                  (Some [("labels", JStrings labels)])) ;;
     if negb (ok response)
     then consoleWarn ("Failed to add labels to PR #" ++ numberToString prNumber
                         ++ ": " ++ numberToString (status response)) []
     else ret tt)
    (fun error =>
       consoleWarn ("Failed to add labels to PR #" ++ numberToString prNumber ++ ":")
                   [error]).

(** [private async requestReviewers(accessToken, owner, repo, prNumber, reviewers)] *)
Definition requestReviewers (accessToken owner repo : string) (prNumber : Z)
           (reviewers : list string) : Async AppConfig unit :=
  tryCatch
    (response <- fetchWithTimeout (reviewersUrl owner repo prNumber)
                   (mkRequestInit "POST" (postHeaders accessToken)
                                  (Some [("reviewers", JStrings reviewers)])) ;;
     if negb (ok response)
     then consoleWarn ("Failed to request reviewers for PR #" ++ numberToString prNumber
                         ++ ": " ++ numberToString (status response)) []
     else ret tt)
    (fun error =>
       consoleWarn ("Failed to request reviewers for PR #" ++ numberToString prNumber ++ ":")
                   [error]).

(** The request body of [createPullRequest]. *)
Definition requestBody (config : CreatePullRequestConfig) : Json :=
  ([ ("title", JString (title config));
     ("body", JString (cfg_body config));
     ("head", JString (sourceBranch config));
     ("base", JString (targetBranch config)) ]
   ++ (if truthy (draft config) then [("draft", JBool true)] else []))%list.

Definition pullRequestInit (auth : SourceControlAuthContext)
           (config : CreatePullRequestConfig) : RequestInit :=
  mkRequestInit "POST" (postHeaders (auth_token auth)) (Some (requestBody config)).

(** The [result] object that [createPullRequest] builds from the response. *)
Definition resultOf (data : PullRequestData) : CreatePullRequestResult :=
  mkCreatePullRequestResult (pr_number data) (pr_html_url data) (pr_url data)
                            (mapState data) (pr_head_ref data) (pr_base_ref data).

(** [async createPullRequest(auth, config)] *)
Definition createPullRequest (auth : SourceControlAuthContext)
           (config : CreatePullRequestConfig) : Async AppConfig CreatePullRequestResult :=
  response <- fetchWithTimeout (pullsUrl (repository config))
                               (pullRequestInit auth config) ;;
  if negb (ok response)
  then
    error <- await (text response) ;;
    throw (VError (ProviderError
      (fromFetchError
         ("Failed to create PR: " ++ numberToString (status response) ++ " " ++ error)
         (newError error)
         (Some (status response)))))
  else
    data <- await (json response) ;;
    let result := resultOf data in
    (if requested (labels config)
     then addLabels (auth_token auth) (owner (repository config))
                    (name (repository config)) (pr_number data)
                    (elements (labels config))
     else ret tt) ;;;
    (if requested (reviewers config)
     then requestReviewers (auth_token auth) (owner (repository config))
                           (name (repository config)) (pr_number data)
                           (elements (reviewers config))
     else ret tt) ;;;
    ret result.

(** [async generatePushAuth()] *)
Definition generatePushAuth (this : GitHubSourceControlProvider)
  : Async AppConfig GitPushAuthContext :=
  match appConfig this with
  | None =>
      throw (VError (ProviderError
        (mkProviderError "GitHub App not configured - cannot generate push auth"
                         permanent None None)))
  | Some cfg =>
      tryCatch
        (token <- generateInstallationToken cfg ;;
         ret (mkGitPushAuthContext "app" token))
        (fun error =>
           throw (VError (ProviderError
             (fromFetchError
                ("Failed to generate GitHub App token: "
                   ++ match asError error with
                      | Some e => errorMessage e
                      | None => toString error
                      end)
                error
                None))))
  end.

End Provider.

Arguments appConfig {AppConfig} g.
Arguments addLabels {AppConfig} accessToken owner repo prNumber labels w.
Arguments requestReviewers {AppConfig} accessToken owner repo prNumber reviewers w.
Arguments createPullRequest {AppConfig} auth config w.
Arguments generatePushAuth {AppConfig} this w.

(** The console entries that one best-effort call leaves, by its outcome:
    nothing after an [ok] response, one warning with the status after any
    other response, one warning with the thrown value after a rejection. *)
Definition warningsOf (what : string) (prNumber : Z) (o : FetchOutcome)
  : list ConsoleEntry :=
  match o with
  | Responded r =>
      if ok r then []
      else [Warn (what ++ numberToString prNumber ++ ": " ++ numberToString (status r)) []]
  | Rejected reason =>
      [Warn (what ++ numberToString prNumber ++ ":") [reason]]
  end.

(** A best-effort call failed: a response that is not [ok], or a rejection. *)
Definition failed (o : FetchOutcome) : bool :=
  match o with
  | Responded r => negb (ok r)
  | Rejected _ => true
  end.

(** The [init] objects of the two best-effort requests. *)
Definition labelsInit (accessToken : string) (labels : list string) : RequestInit :=
  mkRequestInit "POST" (postHeaders accessToken) (Some [("labels", JStrings labels)]).

Definition reviewersInit (accessToken : string) (reviewers : list string) : RequestInit :=
  mkRequestInit "POST" (postHeaders accessToken) (Some [("reviewers", JStrings reviewers)]).

Definition labelsWarning : string := "Failed to add labels to PR #".

Definition reviewersWarning : string := "Failed to request reviewers for PR #".

(** The world after one best-effort call whose request came to [o]: one
    more fetch, and the warnings of [o] on the console. *)
Definition afterBestEffort {AppConfig} (what : string) (prNumber : Z)
           (o : FetchOutcome) (w : World AppConfig) : World AppConfig :=
  mkWorld AppConfig (network w) (S (fetchCount w)) (tokenMinter w) (mintCount w)
          (console w ++ warningsOf what prNumber o).

(** The world after [fetchWithTimeout] returned. *)
Definition afterFetch {AppConfig} (w : World AppConfig) : World AppConfig :=
  mkWorld AppConfig (network w) (S (fetchCount w)) (tokenMinter w) (mintCount w)
          (console w).

(** The world in which [createPullRequest] returns, when its own request
    is answered [ok]. *)
Definition afterCreate {AppConfig} (w : World AppConfig)
           (auth : SourceControlAuthContext) (config : CreatePullRequestConfig)
           (data : PullRequestData) : World AppConfig :=
  let tok := auth_token auth in
  let o := owner (repository config) in
  let r := name (repository config) in
  let n := pr_number data in
  let w1 := afterFetch w in
  let w2 :=
    if requested (labels config)
    then afterBestEffort labelsWarning n
           (network w1 (fetchCount w1) (labelsUrl o r n)
                    (labelsInit tok (elements (labels config)))) w1
    else w1 in
  if requested (reviewers config)
  then afterBestEffort reviewersWarning n
         (network w2 (fetchCount w2) (reviewersUrl o r n)
                  (reviewersInit tok (elements (reviewers config)))) w2
  else w2.

End GitHub.

(* ================================================================== *)
(** ** Sample executions *)

Module Samples.
Import Errors Runtime GitHub.

(** GitHub's answer for a pull request that is already merged. *)
Definition mergedData : PullRequestData :=
  mkPullRequestData 42 "https://github.com/acme/widgets/pull/42"
                    "https://api.github.com/repos/acme/widgets/pulls/42"
                    "closed" false true "feature" "main".

Definition created : Response :=
  mkResponse true 201 (Normal "") (Normal mergedData).

Definition unprocessable : Response :=
  mkResponse false 422 (Normal "Validation Failed")
             (Throw (newError "Unexpected token")).

(** A world in which the pull request is created, the label request is
    answered with 422, every later request is rejected, and token minting
    times out. *)
Definition world : World unit :=
  mkWorld unit
          (fun n _ _ =>
             match n with
             | O => Responded created
             | S O => Responded unprocessable
             | _ => Rejected (newError "fetch failed")
             end)
          0
          (fun _ _ => Throw (newError "connect ETIMEDOUT 140.82.112.5:443"))
          0
          [].

Definition auth : SourceControlAuthContext := mkAuth "ghs_token".

Definition config : CreatePullRequestConfig :=
  mkCreatePullRequestConfig "Add widget" "Adds the widget." "feature" "main"
                            None (mkRepositoryRef "acme" "widgets")
                            (Some ["enhancement"]) (Some ["octocat"]).

End Samples.

(* ================================================================== *)
(** ** The GitHub provider: repository metadata *)

Module Repository.
Import JsString Errors Runtime GitHub.
Local Open Scope async_scope.

(** [GetRepositoryConfig], as far as the provider reads it. *)
Record GetRepositoryConfig : Type := mkGetRepositoryConfig {
  repo_owner : string;
  repo_name : string
}.

(** The body of GitHub's answer, as [getRepository] reads it from
    [response.json()]; [data_owner_login] is [data.owner.login]. *)
Record RepositoryData : Type := mkRepositoryData {
  data_id : Z;
  data_name : string;
  data_full_name : string;
  data_default_branch : string;
  data_private : bool;
  data_owner_login : string
}.

Record RepositoryInfo : Type := mkRepositoryInfo {
  info_owner : string;
  info_name : string;
  fullName : string;
  defaultBranch : string;
  isPrivate : bool;
  providerRepoId : Z
}.

Definition repositoryUrl (config : GetRepositoryConfig) : string :=
  GITHUB_API_BASE ++ "/repos/" ++ repo_owner config ++ "/" ++ repo_name config.

(** The [init] of the metadata request.  The source names three headers and
    no [method]; the field holds the method that [fetch] then uses. *)
Definition repositoryInit (auth : SourceControlAuthContext) : RequestInit :=
  mkRequestInit "GET"
                [ ("Accept", "application/vnd.github.v3+json");
                  ("Authorization", "Bearer " ++ auth_token auth);
                  ("User-Agent", USER_AGENT) ]
                None.

(** The object that [getRepository] returns. *)
Definition infoOf (data : RepositoryData) : RepositoryInfo :=
  mkRepositoryInfo (data_owner_login data) (data_name data) (data_full_name data)
                   (data_default_branch data) (data_private data) (data_id data).

Section GetRepository.

Variable AppConfig : Type.

(** [response.json()] read at the type that [getRepository] casts it to
    (the [json] field of a [Response] is the reading of [createPullRequest]). *)
Variable repositoryJson : Response -> Completion RepositoryData.

(** [async getRepository(auth, config)] *)
Definition getRepository (auth : SourceControlAuthContext)
           (config : GetRepositoryConfig) : Async AppConfig RepositoryInfo :=
  response <- fetchWithTimeout (repositoryUrl config) (repositoryInit auth) ;;
  if negb (ok response)
  then
    error <- await (text response) ;;
    throw (VError (ProviderError
      (fromFetchError
         ("Failed to get repository: " ++ numberToString (status response) ++ " " ++ error)
         (newError error)
         (Some (status response)))))
  else
    data <- await (repositoryJson response) ;;
    ret (infoOf data).

End GetRepository.

Arguments getRepository {AppConfig} repositoryJson auth config w.

End Repository.

(* ================================================================== *)
(** ** Measures of an execution *)

Module Measures.
Import Errors Runtime GitHub.

(** Whether an optional list asks for a best-effort request: 1 when it
    holds an element, 0 when it is absent or empty. *)
Definition requestsFor (l : option (list string)) : nat :=
  match elements l with
  | [] => 0
  | _ :: _ => 1
  end.

(** The prefix that [generatePushAuth] puts before the message of a failed
    token minting. *)
Definition tokenFailurePrefix : string := "Failed to generate GitHub App token: ".

(** A string that does not hold the path separator. *)
Fixpoint slashFree (s : string) : Prop :=
  match s with
  | EmptyString => True
  | String c s' => c <> "/"%char /\ slashFree s'
  end.

End Measures.

(* ================================================================== *)
(** ** More sample executions *)

Module MoreSamples.
Import Errors Runtime GitHub Repository.

Definition widgets : RepositoryData :=
  mkRepositoryData 1296269 "widgets" "acme/widgets" "main" true "acme".

(** Every response carries the repository [widgets] as its body. *)
Definition readWidgets (r : Response) : Completion RepositoryData :=
  Normal widgets.

(** Every response has a body that does not parse. *)
Definition unreadable (r : Response) : Completion RepositoryData :=
  Throw (newError "Unexpected end of JSON input").

Definition unavailable : Response :=
  mkResponse false 503 (Normal "Service Unavailable")
             (Throw (newError "Unexpected token")).

Definition brokenBody : Response :=
  mkResponse false 500 (Throw (newError "body stream already read"))
             (Throw (newError "Unexpected token")).

Definition createdUnreadable : Response :=
  mkResponse true 201 (Normal "") (Throw (newError "Unexpected end of JSON input")).

(** A world whose every request comes to [o], and whose token minting
    comes to [t]. *)
Definition constWorld (o : FetchOutcome) (t : Completion string) : World unit :=
  mkWorld unit (fun _ _ _ => o) 0 (fun _ _ => t) 0 [].

(** Every request is answered with the created pull request; a token is
    minted. *)
Definition okWorld : World unit :=
  constWorld (Responded Samples.created) (Normal "ghs_abc").

(** Every request is rejected; token minting throws a string. *)
Definition rejecting : World unit :=
  constWorld (Rejected (newError "fetch failed")) (Throw (VString "fetch failed")).

Definition repoConfig : GetRepositoryConfig := mkGetRepositoryConfig "acme" "widgets".

(** No labels (absent) and no reviewers (an empty list). *)
Definition plainConfig : CreatePullRequestConfig :=
  mkCreatePullRequestConfig "Add widget" "Adds the widget." "feature" "main"
                            (Some false) (mkRepositoryRef "acme" "widgets")
                            None (Some []).

Definition draftConfig : CreatePullRequestConfig :=
  mkCreatePullRequestConfig "Add widget" "Adds the widget." "feature" "main"
                            (Some true) (mkRepositoryRef "acme" "widgets")
                            None None.

End MoreSamples.

(* ================================================================== *)
(** ** The classifier on values that the types do not vouch for

    [fromFetchError] takes an [unknown], and a [catch] clause binds whatever
    was thrown.  The modules above read such a value at its TypeScript type:
    an [Error] has a string [message], an object has a [toString].  At run
    time neither is enforced, and two operations of the source raise a
    [TypeError] when it does not hold: [error.message.toLowerCase()] in
    [isTransientNetworkError], and [String(error)] in the [catch] clause of
    [generatePushAuth].  This module repeats the three functions on a value
    universe that has the two kinds of value on which they do. *)

Module Untyped.
Import JsString Errors Runtime GitHub.

(** What the [message] of an [Error] holds when it is not a string: one of
    the other primitives. *)
Inductive NonString : Type :=
| NsUndefined
| NsNull
| NsBool (b : bool)
| NsNumber (z : Z).

(** The value of a property that is declared [string]. *)
Inductive Property : Type :=
| PString (s : string)
| POther (n : NonString).

(** Values at run time: the values of [JsValue] (an [Error] among them has
    a string [message]); an instance of [Error] whose [message] is not a
    string; an object with no [toString] and no [valueOf], such as
    [Object.create(null)]. *)
Inductive RawValue : Type :=
| Typed (v : JsValue)
| OddError (name : string) (message : NonString)
| BareObject.

(** How a synchronous call ends: with a value, or by raising a [TypeError]. *)
Inductive Outcome (A : Type) : Type :=
| Returns (a : A)
| RaisesTypeError.
Arguments Returns {A} a.
Arguments RaisesTypeError {A}.

(** An instance of [SourceControlProviderError]; its [cause] is the raw
    error itself when that is an instance of [Error]. *)
Record Classified : Type := mkClassified {
  c_message : string;
  c_errorType : SourceControlErrorType;
  c_httpStatus : option Z;
  c_cause : option RawValue
}.

(** [error instanceof Error] *)
Definition instanceOfError (error : RawValue) : bool :=
  match error with
  | Typed (VError _) => true
  | OddError _ _ => true
  | _ => false
  end.

(** [error.message] *)
Definition messageProperty (error : RawValue) : Property :=
  match error with
  | Typed (VError e) => PString (errorMessage e)
  | OddError _ m => POther m
  | _ => POther NsUndefined
  end.

(** [value.toLowerCase()]: a method that only strings have; on [undefined]
    and [null] the property access raises, on a number or a boolean the
    call does. *)
Definition callToLowerCase (p : Property) : Outcome string :=
  match p with
  | PString s => Returns (toLowerCase s)
  | POther _ => RaisesTypeError
  end.

(** A value inside a template literal. *)
Definition templateOf (p : Property) : string :=
  match p with
  | PString s => s
  | POther NsUndefined => "undefined"
  | POther NsNull => "null"
  | POther (NsBool true) => "true"
  | POther (NsBool false) => "false"
  | POther (NsNumber z) => numberToString z
  end.

(** [String(value)]: raises for an object that cannot be converted to a
    primitive.  (The provider calls it on values that are no [Error].) *)
Definition callString (error : RawValue) : Outcome string :=
  match error with
  | Typed v => Returns (toString v)
  | OddError name NsUndefined => Returns name
  | OddError name m => Returns (name ++ ": " ++ templateOf (POther m))
  | BareObject => RaisesTypeError
  end.

(** [error instanceof Error ? error : undefined] *)
Definition causeOf (error : RawValue) : option RawValue :=
  if instanceOfError error then Some error else None.

(** [static isTransientNetworkError(error)] *)
Definition isTransientNetworkError (error : RawValue) : Outcome bool :=
  if instanceOfError error
  then
    match callToLowerCase (messageProperty error) with
    | Returns message =>
        Returns (includes message "fetch failed" ||
                 includes message "etimedout" ||
                 includes message "econnreset" ||
                 includes message "econnrefused" ||
                 includes message "network" ||
                 includes message "timeout" ||
                 includes message "aborted")
    | RaisesTypeError => RaisesTypeError
    end
  else Returns false.

(** [static fromFetchError(message, error, status?)] *)
Definition fromFetchError (message : string) (error : RawValue)
           (status : option Z) : Outcome Classified :=
  match status with
  | Some status =>
      let errorType := if isTransientStatus status then transient else permanent in
      Returns (mkClassified message errorType (Some status) (causeOf error))
  | None =>
      match isTransientNetworkError error with
      | Returns b =>
          let errorType := if b then transient else permanent in
          Returns (mkClassified message errorType None (causeOf error))
      | RaisesTypeError => RaisesTypeError
      end
  end.

(** What [await generateInstallationToken(appConfig)] comes to. *)
Inductive Minted : Type :=
| Token (token : string)
| MintThrew (error : RawValue).

(** How the promise of [generatePushAuth] settles: resolved, rejected with
    a classified error, or rejected with a [TypeError] raised on the way. *)
Inductive Settled : Type :=
| Resolved (ctx : GitPushAuthContext)
| RejectedWith (e : Classified)
| RejectedTypeError.

(** [async generatePushAuth()], with the provider's [appConfig] and the
    token minting as arguments. *)
Definition generatePushAuth {AppConfig : Type} (appConfig : option AppConfig)
           (generateInstallationToken : AppConfig -> Minted) : Settled :=
  match appConfig with
  | None =>
      RejectedWith
        (mkClassified "GitHub App not configured - cannot generate push auth"
                      permanent None None)
  | Some cfg =>
      match generateInstallationToken cfg with
      | Token token => Resolved (mkGitPushAuthContext "app" token)
      | MintThrew error =>
          match (if instanceOfError error
                 then Returns (templateOf (messageProperty error))
                 else callString error) with
          | Returns text =>
              match fromFetchError ("Failed to generate GitHub App token: " ++ text)
                                   error None with
              | Returns e => RejectedWith e
              | RaisesTypeError => RejectedTypeError
              end
          | RaisesTypeError => RejectedTypeError
          end
      end
  end.

(** A classified error of the typed reading, as a value of this module. *)
Definition untypedOf (e : SourceControlProviderError) : Classified :=
  mkClassified (message e) (errorType e) (httpStatus e)
               (option_map (fun c => Typed (VError c)) (cause e)).

(** The outcome of the typed minting, as a value of this module. *)
Definition mintedOf (c : Completion string) : Minted :=
  match c with
  | Normal token => Token token
  | Throw v => MintThrew (Typed v)
  end.


End Untyped.


(* ================================================================== *)
(** * Properties *)

Import JsString Errors Runtime GitHub.

(** ** Strings: prefixes, containment and case *)

Section StringFacts.

Lemma lower_ascii_idem (c : ascii) : lower_ascii (lower_ascii c) = lower_ascii c.
Proof.
  destruct c as [[] [] [] [] [] [] [] []]; vm_compute; reflexivity.
Qed.

Lemma toLowerCase_idem (s : string) : toLowerCase (toLowerCase s) = toLowerCase s.
Proof.
  induction s as [|c s IH]; simpl; [reflexivity|].
  now rewrite lower_ascii_idem, IH.
Qed.

Lemma toLowerCase_app (a b : string) :
  toLowerCase (a ++ b) = toLowerCase a ++ toLowerCase b.
Proof.
  induction a as [|c a IH]; simpl; [reflexivity|].
  now rewrite IH.
Qed.

Lemma toLowerCase_app_inv (s a b : string) :
  toLowerCase s = a ++ b ->
  exists s1 s2, s = s1 ++ s2 /\ toLowerCase s1 = a /\ toLowerCase s2 = b.
Proof.
  revert s; induction a as [|c a IH]; intros s H.
  - exists EmptyString, s; auto.
  - destruct s as [|d s]; simpl in H; [discriminate|].
    injection H as Hc Hs.
    destruct (IH _ Hs) as (s1 & s2 & -> & H1 & H2).
    exists (String d s1), s2; simpl; repeat split; auto.
    now rewrite Hc, H1.
Qed.

Lemma caseVariant_toLowerCase (s t : string) :
  caseVariant s t <-> toLowerCase s = toLowerCase t.
Proof.
  revert t; induction s as [|a s IH]; intros [|b t]; simpl;
    try (split; [tauto | discriminate]).
  - tauto.
  - rewrite IH; split.
    + intros [-> ->]; reflexivity.
    + intros H; injection H; auto.
Qed.

Lemma startsWith_app (p post : string) : startsWith (p ++ post) p = true.
Proof.
  induction p as [|c p IH]; simpl; [reflexivity|].
  now rewrite Ascii.eqb_refl, IH.
Qed.

Lemma startsWith_inv (s p : string) :
  startsWith s p = true -> exists post, s = p ++ post.
Proof.
  revert s; induction p as [|c p IH]; intros s H.
  - exists s; reflexivity.
  - destruct s as [|d s]; simpl in H; [discriminate|].
    apply andb_true_iff in H as [Hc Hp].
    apply Ascii.eqb_eq in Hc as ->.
    destruct (IH _ Hp) as [post ->].
    exists post; reflexivity.
Qed.

Lemma includes_here (s sub : string) :
  startsWith s sub = true -> includes s sub = true.
Proof.
  intros H; destruct s; simpl in *; rewrite H; reflexivity.
Qed.

Lemma includes_app (pre sub post : string) :
  includes (pre ++ sub ++ post) sub = true.
Proof.
  induction pre as [|c pre IH].
  - apply (includes_here (sub ++ post) sub), startsWith_app.
  - change (includes (String c (pre ++ sub ++ post)) sub = true).
    simpl; rewrite IH; apply orb_true_r.
Qed.

Lemma includes_inv (s sub : string) :
  includes s sub = true -> exists pre post, s = pre ++ sub ++ post.
Proof.
  induction s as [|c s IH]; simpl; intros H.
  - rewrite orb_false_r in H.
    destruct (startsWith_inv _ _ H) as [post E].
    exists EmptyString, post; exact E.
  - apply orb_true_iff in H as [H|H].
    + destruct (startsWith_inv _ _ H) as [post E].
      exists EmptyString, post; exact E.
    + destruct (IH H) as (pre & post & ->).
      exists (String c pre), post; reflexivity.
Qed.

(** [includes] on the lower-cased message is containment up to case. *)
Lemma includes_toLowerCase (s sub : string) :
  toLowerCase sub = sub ->
  includes (toLowerCase s) sub = true <-> containsIgnoringCase s sub.
Proof.
  intros Hsub; split.
  - intros H.
    destruct (includes_inv _ _ H) as (a & b & E).
    destruct (toLowerCase_app_inv _ _ _ E) as (s1 & s2 & -> & _ & E2).
    destruct (toLowerCase_app_inv _ _ _ E2) as (s3 & s4 & -> & E3 & _).
    exists s1, s3, s4; split; [reflexivity|].
    apply caseVariant_toLowerCase; congruence.
  - intros (pre & mid & post & -> & Hv).
    apply caseVariant_toLowerCase in Hv.
    rewrite !toLowerCase_app, Hv, Hsub.
    apply includes_app.
Qed.

End StringFacts.

(** ** The two classifiers *)

Lemma transientSubstrings_lower (p : string) :
  In p transientSubstrings -> toLowerCase p = p.
Proof.
  unfold transientSubstrings; simpl.
  intros H; repeat (destruct H as [<-|H]; [reflexivity|]); contradiction.
Qed.

(** The chain of [||] in [isTransientNetworkError] is a search through
    [transientSubstrings]. *)
Lemma isTransientNetworkError_existsb (e : JsError) :
  isTransientNetworkError (VError e)
  = existsb (includes (toLowerCase (errorMessage e))) transientSubstrings.
Proof.
  unfold isTransientNetworkError, transientSubstrings; simpl.
  repeat match goal with
         | |- context [includes ?a ?b] => destruct (includes a b)
         end; reflexivity.
Qed.

Lemma isTransientNetworkError_iff (v : JsValue) :
  isTransientNetworkError v = true <->
  exists e p, v = VError e /\ In p transientSubstrings
              /\ containsIgnoringCase (errorMessage e) p.
Proof.
  split.
  - destruct v as [| | | | | |e]; try discriminate.
    rewrite isTransientNetworkError_existsb.
    intros H; apply existsb_exists in H as (p & Hp & Hi).
    exists e, p; repeat split; auto.
    apply includes_toLowerCase; auto using transientSubstrings_lower.
  - intros (e & p & -> & Hp & Hc).
    rewrite isTransientNetworkError_existsb.
    apply existsb_exists; exists p; split; auto.
    apply includes_toLowerCase; auto using transientSubstrings_lower.
Qed.

Lemma isTransientStatus_iff (s : Z) :
  isTransientStatus s = true <-> In s transientStatuses.
Proof.
  unfold isTransientStatus, transientStatuses; simpl.
  rewrite !orb_true_iff, !Z.eqb_eq.
  intuition lia.
Qed.

Lemma errorType_cases (t : SourceControlErrorType) :
  (t = transient \/ t = permanent) /\ ~ (t = transient /\ t = permanent).
Proof.
  destruct t; split; auto; intros [? ?]; discriminate.
Qed.

(** ** [fromFetchError]: what the classified error carries *)

Lemma errorType_status (m : string) (e : JsValue) (s : Z) :
  errorType (fromFetchError m e (Some s))
  = if isTransientStatus s then transient else permanent.
Proof. reflexivity. Qed.

Lemma errorType_no_status (m : string) (e : JsValue) :
  errorType (fromFetchError m e None)
  = if isTransientNetworkError e then transient else permanent.
Proof. reflexivity. Qed.

Lemma errorType_transient_iff (b : bool) :
  (if b then transient else permanent) = transient <-> b = true.
Proof. destruct b; split; congruence. Qed.

Lemma errorType_permanent_iff (b : bool) :
  (if b then transient else permanent) = permanent <-> b = false.
Proof. destruct b; split; congruence. Qed.

(** C1.  With a status code supplied, the classified error is [transient]
    exactly when the status is 429, 502, 503 or 504, and [permanent] for
    every other status code. *)
Theorem fromFetchError_status_classification (m : string) (e : JsValue) (s : Z) :
  (errorType (fromFetchError m e (Some s)) = transient
   <-> (s = 429 \/ s = 502 \/ s = 503 \/ s = 504)%Z)
  /\
  (errorType (fromFetchError m e (Some s)) = permanent
   <-> (s <> 429 /\ s <> 502 /\ s <> 503 /\ s <> 504)%Z).
Proof.
  rewrite errorType_status, errorType_transient_iff, errorType_permanent_iff.
  rewrite <- not_true_iff_false, isTransientStatus_iff.
  unfold transientStatuses; simpl.
  split; intuition lia.
Qed.

(** The status codes that the specification lists as examples. *)
Example status_examples :
  map (fun s => errorType (fromFetchError "m" VUndefined (Some s)))
      [429; 502; 503; 504; 400; 401; 403; 404; 500; 422]%Z
  = [transient; transient; transient; transient;
     permanent; permanent; permanent; permanent; permanent; permanent].
Proof. reflexivity. Qed.

(** C2.  With no status code: an [Error] whose message contains, in any
    letter case, one of the seven substrings is [transient]; an [Error]
    whose message contains none of them is [permanent]; a value that is not
    an [Error] is [permanent]. *)
Theorem fromFetchError_message_classification (m : string) (e : JsValue) :
  (forall err p,
      e = VError err -> In p transientSubstrings ->
      containsIgnoringCase (errorMessage err) p ->
      errorType (fromFetchError m e None) = transient)
  /\
  (forall err,
      e = VError err ->
      (forall p, In p transientSubstrings ->
                 ~ containsIgnoringCase (errorMessage err) p) ->
      errorType (fromFetchError m e None) = permanent)
  /\
  (asError e = None -> errorType (fromFetchError m e None) = permanent).
Proof.
  repeat split.
  - intros err p -> Hp Hc.
    apply errorType_transient_iff, isTransientNetworkError_iff; eauto.
  - intros err -> Hnone.
    apply errorType_permanent_iff, not_true_iff_false; intros H.
    apply isTransientNetworkError_iff in H as (e' & p & E & Hp & Hc).
    injection E as <-.
    exact (Hnone p Hp Hc).
  - intros H; rewrite errorType_no_status.
    unfold isTransientNetworkError; now rewrite H.
Qed.

(** The specification's own examples of the message-driven path. *)
Example message_examples :
  map (fun v => errorType (fromFetchError "m" v None))
      [ newError "fetch failed"; newError "connect ETIMEDOUT 10.0.0.1:443";
        newError "read ECONNRESET"; newError "ECONNREFUSED";
        newError "Network request failed"; newError "Request Timeout";
        newError "The operation was aborted";
        newError "invalid credentials"; VString "fetch failed";
        VUndefined; VNull; VNumber 503; VObject ]
  = [ transient; transient; transient; transient; transient; transient;
      transient; permanent; permanent; permanent; permanent; permanent;
      permanent ].
Proof. reflexivity. Qed.

(** C3.  With a status code supplied the classification depends on the
    status only: any two raw errors give the same [errorType]; status 503
    with the message "invalid token" is [transient]. *)
Theorem fromFetchError_status_precedence (m : string) (e1 e2 : JsValue) (s : Z) :
  errorType (fromFetchError m e1 (Some s)) = errorType (fromFetchError m e2 (Some s))
  /\ errorType (fromFetchError m (newError "invalid token") (Some 503%Z)) = transient
  /\ errorType (fromFetchError m (newError "network timeout") (Some 400%Z)) = permanent.
Proof. repeat split. Qed.

(** On values read at their types the classifier of [Untyped] returns what
    [fromFetchError] returns. *)
Lemma fromFetchError_on_typed (m : string) (v : JsValue) (s : option Z) :
  Untyped.fromFetchError m (Untyped.Typed v) s
  = Untyped.Returns (Untyped.untypedOf (fromFetchError m v s)).
Proof.
  destruct s as [st|]; destruct v; reflexivity.
Qed.

(** [fromFetchError] raises exactly when it has to lower-case a message
    that is not a string. *)
Lemma fromFetchError_raises_iff (m : string) (error : Untyped.RawValue) (s : option Z) :
  Untyped.fromFetchError m error s = Untyped.RaisesTypeError
  <-> s = None /\ exists name n, error = Untyped.OddError name n.
Proof.
  split.
  - destruct s as [st|]; [discriminate|].
    destruct error as [v|name n|]; try (destruct v); try discriminate.
    intros _; eauto.
  - intros (-> & name & n & ->); reflexivity.
Qed.

(** C4 fails as the specification words it (never raises, for every raw
    error value): with no status, an [Error] whose [message] is the number
    42 makes [error.message.toLowerCase()] raise a [TypeError]. *)
Lemma fromFetchError_raises_on_non_string_message :
  Untyped.fromFetchError "Failed to generate GitHub App token: 42"
                         (Untyped.OddError "Error" (Untyped.NsNumber 42)) None
  = Untyped.RaisesTypeError
  /\ ~ (forall (m : string) (error : Untyped.RawValue) (s : option Z),
          exists r, Untyped.fromFetchError m error s = Untyped.Returns r).
Proof.
  split; [reflexivity|].
  intros H.
  destruct (H "m" (Untyped.OddError "Error" (Untyped.NsNumber 42)) None) as [r Hr].
  discriminate Hr.
Qed.

(** C4, amended.  [fromFetchError] returns one classified error, whose
    [errorType] is one of [transient] and [permanent] and never both, for
    every message and every raw error when a status is supplied, and with no
    status for every raw error that is not an [Error] or is an [Error] whose
    [message] is a string; on a value read at its type the error returned is
    the one of [Errors.fromFetchError]. *)
Theorem fromFetchError_never_raises (m : string) (error : Untyped.RawValue)
        (s : option Z) :
  s <> None
  \/ Untyped.instanceOfError error = false
  \/ (exists str, Untyped.messageProperty error = Untyped.PString str) ->
  exists r : Untyped.Classified,
    Untyped.fromFetchError m error s = Untyped.Returns r
    /\ (Untyped.c_errorType r = transient \/ Untyped.c_errorType r = permanent)
    /\ ~ (Untyped.c_errorType r = transient /\ Untyped.c_errorType r = permanent)
    /\ (forall v, error = Untyped.Typed v ->
                  r = Untyped.untypedOf (fromFetchError m v s)).
Proof.
  intros Hsafe.
  destruct (Untyped.fromFetchError m error s) as [r|] eqn:Hrun.
  - exists r; split; [reflexivity|].
    split; [apply errorType_cases|]; split; [apply errorType_cases|].
    intros v ->.
    rewrite fromFetchError_on_typed in Hrun; now injection Hrun.
  - apply fromFetchError_raises_iff in Hrun as (-> & name & n & ->).
    destruct Hsafe as [H|[H|[str H]]]; [now elim H|discriminate|discriminate].
Qed.

(** C5.  The message test does not see letter case, and it is plain
    containment: two [Error]s whose messages differ only in letter case are
    classified alike, and a message that contains one of the substrings
    anywhere is [transient]. *)
Theorem isTransientNetworkError_case_insensitive (e e' : JsError) :
  (caseVariant (errorMessage e) (errorMessage e') ->
   isTransientNetworkError (VError e) = isTransientNetworkError (VError e'))
  /\
  (forall pre p post m,
      In p transientSubstrings ->
      errorMessage e = pre ++ p ++ post ->
      isTransientNetworkError (VError e) = true
      /\ errorType (fromFetchError m (VError e) None) = transient).
Proof.
  split.
  - intros H; apply caseVariant_toLowerCase in H.
    rewrite !isTransientNetworkError_existsb; now rewrite H.
  - intros pre p post m Hp E.
    assert (H : isTransientNetworkError (VError e) = true).
    { rewrite isTransientNetworkError_existsb.
      apply existsb_exists; exists p; split; [exact Hp|].
      rewrite E, !toLowerCase_app, (transientSubstrings_lower p Hp).
      apply includes_app. }
    split; [exact H|].
    now rewrite errorType_no_status, H.
Qed.

(** C6.  [httpStatus] is the status that was supplied: present, and equal
    to it, when one was; absent when none was. *)
Theorem fromFetchError_httpStatus (m : string) (e : JsValue) (s : option Z) :
  httpStatus (fromFetchError m e s) = s.
Proof. destruct s; reflexivity. Qed.

(** C7 fails as the specification words it (the raw error, whatever it is,
    is the [cause]): a thrown string is not kept; the classified error has
    no [cause] at all. *)
Lemma cause_drops_non_Error :
  cause (fromFetchError "Failed to generate GitHub App token: boom"
                        (VString "boom") None) = None
  /\ ~ causePreservesRawError "Failed to generate GitHub App token: boom"
                              (VString "boom") None
  /\ ~ (forall m e s, causePreservesRawError m e s).
Proof.
  split; [reflexivity|]; split.
  - unfold causePreservesRawError; simpl; discriminate.
  - intros H; specialize (H "m" (VString "boom") None).
    unfold causePreservesRawError in H; simpl in H; discriminate.
Qed.

(** C7, amended.  The raw error is kept as [cause] when it is an [Error]
    and the [cause] is absent otherwise; the [errorType] is fixed by the
    status when there is one (whatever the raw error) and otherwise by the
    message of the raw error alone (whatever else the raw error carries). *)
Theorem fromFetchError_cause (m : string) (e : JsValue) (s : option Z) :
  cause (fromFetchError m e s) = asError e
  /\
  (forall err, e = VError err -> cause (fromFetchError m e s) = Some err)
  /\
  (forall m' e',
      s <> None
      \/ option_map errorMessage (asError e') = option_map errorMessage (asError e) ->
      errorType (fromFetchError m' e' s) = errorType (fromFetchError m e s)).
Proof.
  repeat split.
  - destruct s; reflexivity.
  - intros err ->; destruct s; reflexivity.
  - intros m' e' H.
    destruct s as [st|]; [reflexivity|].
    destruct H as [H|H]; [congruence|].
    rewrite !errorType_no_status; f_equal.
    unfold isTransientNetworkError.
    destruct (asError e') as [a'|], (asError e) as [a|]; simpl in H;
      try discriminate; [|reflexivity].
    injection H as ->; reflexivity.
Qed.

(** ** The provider *)

Section ProviderFacts.

Context {AppConfig : Type}.
Implicit Types (w : World AppConfig) (auth : SourceControlAuthContext)
         (config : CreatePullRequestConfig).

Lemma bind_normal {A B} (m : Async AppConfig A) (k : A -> Async AppConfig B)
      w (a : A) w' :
  m w = (Normal a, w') -> bind m k w = k a w'.
Proof. intros H; unfold bind; now rewrite H. Qed.

Lemma bind_throw {A B} (m : Async AppConfig A) (k : A -> Async AppConfig B)
      w (v : JsValue) w' :
  m w = (Throw v, w') -> bind m k w = (Throw v, w').
Proof. intros H; unfold bind; now rewrite H. Qed.

Lemma addLabels_run w (tok o r : string) (n : Z) (l : list string) :
  addLabels tok o r n l w
  = (Normal tt,
     afterBestEffort labelsWarning n
       (network w (fetchCount w) (labelsUrl o r n) (labelsInit tok l)) w).
Proof.
  unfold addLabels, tryCatch, bind, fetchWithTimeout, afterBestEffort, labelsInit.
  destruct (network w (fetchCount w) _ _) as [resp|reason]; simpl.
  - destruct (ok resp); simpl; [rewrite app_nil_r|]; reflexivity.
  - reflexivity.
Qed.

Lemma requestReviewers_run w (tok o r : string) (n : Z) (l : list string) :
  requestReviewers tok o r n l w
  = (Normal tt,
     afterBestEffort reviewersWarning n
       (network w (fetchCount w) (reviewersUrl o r n) (reviewersInit tok l)) w).
Proof.
  unfold requestReviewers, tryCatch, bind, fetchWithTimeout, afterBestEffort,
    reviewersInit.
  destruct (network w (fetchCount w) _ _) as [resp|reason]; simpl.
  - destruct (ok resp); simpl; [rewrite app_nil_r|]; reflexivity.
  - reflexivity.
Qed.

(** A failed best-effort call leaves exactly one warning, a successful one
    leaves none. *)
Lemma warningsOf_length (what : string) (n : Z) (o : FetchOutcome) :
  List.length (warningsOf what n o) = if failed o then 1 else 0.
Proof.
  destruct o as [r|v]; simpl; [destruct (ok r)|]; reflexivity.
Qed.

Lemma createPullRequest_success w auth config (resp : Response) (data : PullRequestData) :
  network w (fetchCount w) (pullsUrl (repository config)) (pullRequestInit auth config)
  = Responded resp ->
  ok resp = true ->
  json resp = Normal data ->
  createPullRequest auth config w = (Normal (resultOf data), afterCreate w auth config data).
Proof.
  intros Hnet Hok Hjson.
  unfold createPullRequest, afterCreate.
  rewrite (bind_normal _ _ w resp (afterFetch w))
    by (unfold fetchWithTimeout; rewrite Hnet; reflexivity).
  rewrite Hok; cbn [negb].
  rewrite (bind_normal _ _ _ data (afterFetch w))
    by (unfold await; rewrite Hjson; reflexivity).
  cbv zeta.
  destruct (requested (labels config)).
  - rewrite (bind_normal _ _ _ tt _ (addLabels_run _ _ _ _ _ _)).
    destruct (requested (reviewers config)).
    + rewrite (bind_normal _ _ _ tt _ (requestReviewers_run _ _ _ _ _ _)).
      reflexivity.
    + reflexivity.
  - rewrite (bind_normal _ _ _ tt (afterFetch w) eq_refl).
    destruct (requested (reviewers config)).
    + rewrite (bind_normal _ _ _ tt _ (requestReviewers_run _ _ _ _ _ _)).
      reflexivity.
    + reflexivity.
Qed.

Lemma console_afterBestEffort (what : string) (n : Z) (o : FetchOutcome) w :
  console (afterBestEffort what n o w) = (console w ++ warningsOf what n o)%list.
Proof. reflexivity. Qed.

(** C8.  When the request that creates the pull request succeeds,
    [createPullRequest] returns its result whatever becomes of the label and
    reviewer requests: a response that is not [ok] and a rejection are each
    logged with one [console.warn] and nothing is thrown. *)
Theorem createPullRequest_best_effort w auth config
        (resp : Response) (data : PullRequestData) :
  network w (fetchCount w) (pullsUrl (repository config)) (pullRequestInit auth config)
  = Responded resp ->
  ok resp = true ->
  json resp = Normal data ->
  let tok := auth_token auth in
  let o := owner (repository config) in
  let r := name (repository config) in
  let n := pr_number data in
  let labelOutcome :=
    network w (S (fetchCount w)) (labelsUrl o r n)
            (labelsInit tok (elements (labels config))) in
  let reviewerCall :=
    if requested (labels config) then S (S (fetchCount w)) else S (fetchCount w) in
  let reviewerOutcome :=
    network w reviewerCall (reviewersUrl o r n)
            (reviewersInit tok (elements (reviewers config))) in
  let labelWarnings :=
    if requested (labels config) then warningsOf labelsWarning n labelOutcome else [] in
  let reviewerWarnings :=
    if requested (reviewers config)
    then warningsOf reviewersWarning n reviewerOutcome else [] in
  exists w',
    createPullRequest auth config w = (Normal (resultOf data), w')
    /\ console w' = (console w ++ labelWarnings ++ reviewerWarnings)%list
    /\ List.length labelWarnings
       = (if requested (labels config) && failed labelOutcome then 1 else 0)%nat
    /\ List.length reviewerWarnings
       = (if requested (reviewers config) && failed reviewerOutcome then 1 else 0)%nat.
Proof.
  intros Hnet Hok Hjson; cbv zeta.
  exists (afterCreate w auth config data).
  split; [exact (createPullRequest_success w auth config resp data Hnet Hok Hjson)|].
  unfold afterCreate; cbv zeta.
  destruct (requested (labels config)), (requested (reviewers config));
    rewrite ?console_afterBestEffort; simpl;
    rewrite ?warningsOf_length, ?app_nil_r, <- ?app_assoc; auto.
Qed.

(** C9.  A provider constructed without an [appConfig] throws a [permanent]
    error without [httpStatus] from [generatePushAuth] and leaves the world
    as it found it (no token is asked for); with an [appConfig], a failure
    of the token minting is thrown as [fromFetchError] classifies it with no
    status. *)
Theorem generatePushAuth_errors w :
  (exists e : SourceControlProviderError,
      generatePushAuth (createGitHubProvider AppConfig None) w
      = (Throw (VError (ProviderError e)), w)
      /\ errorType e = permanent
      /\ httpStatus e = None)
  /\
  (forall (cfg : AppConfig) (v : JsValue),
      tokenMinter w (mintCount w) cfg = Throw v ->
      exists (msg : string) w',
        generatePushAuth (createGitHubProvider AppConfig (Some cfg)) w
        = (Throw (VError (ProviderError (fromFetchError msg v None))), w')
        /\ mintCount w' = S (mintCount w)
        /\ httpStatus (fromFetchError msg v None) = None
        /\ errorType (fromFetchError msg v None)
           = (if isTransientNetworkError v then transient else permanent)).
Proof.
  split.
  - eexists; repeat split.
  - intros cfg v Hmint.
    unfold generatePushAuth, createGitHubProvider; simpl.
    unfold tryCatch.
    rewrite (bind_throw _ _ w v
               (mkWorld AppConfig (network w) (fetchCount w) (tokenMinter w)
                        (S (mintCount w)) (console w)))
      by (unfold generateInstallationToken; now rewrite Hmint).
    unfold throw.
    eexists; eexists; repeat split.
Qed.

(** C10.  The state of the result of [createPullRequest] follows a fixed
    precedence: [draft] wins, then [merged], then the [state] string "open"
    or "closed", and any other string counts as open. *)
Theorem createPullRequest_state w auth config
        (resp : Response) (data : PullRequestData) :
  network w (fetchCount w) (pullsUrl (repository config)) (pullRequestInit auth config)
  = Responded resp ->
  ok resp = true ->
  json resp = Normal data ->
  exists (result : CreatePullRequestResult) w',
    createPullRequest auth config w = (Normal result, w')
    /\ (pr_draft data = true -> state result = state_draft)
    /\ (pr_draft data = false -> pr_merged data = true -> state result = state_merged)
    /\ (pr_draft data = false -> pr_merged data = false ->
        pr_state data = "open" -> state result = state_open)
    /\ (pr_draft data = false -> pr_merged data = false ->
        pr_state data = "closed" -> state result = state_closed)
    /\ (pr_draft data = false -> pr_merged data = false ->
        pr_state data <> "open" -> pr_state data <> "closed" ->
        state result = state_open).
Proof.
  intros Hnet Hok Hjson.
  exists (resultOf data), (afterCreate w auth config data).
  split; [exact (createPullRequest_success w auth config resp data Hnet Hok Hjson)|].
  unfold resultOf, mapState; simpl.
  repeat split.
  - intros ->; reflexivity.
  - intros -> ->; reflexivity.
  - intros -> -> ->; reflexivity.
  - intros -> -> ->; reflexivity.
  - intros -> -> Ho Hc.
    apply String.eqb_neq in Ho, Hc.
    now rewrite Ho, Hc.
Qed.

End ProviderFacts.

(** ** The properties at concrete inputs *)

Example numberToString_examples :
  map numberToString [0; 42; 503; -7]%Z = ["0"; "42"; "503"; "-7"].
Proof. reflexivity. Qed.

(** A run of [createPullRequest] in the sample world: the pull request is
    created, the labels are refused with 422, the reviewer request is
    rejected; the result is returned and the console holds two warnings. *)
Example createPullRequest_sample_run :
  let (outcome, w') := createPullRequest Samples.auth Samples.config Samples.world in
  outcome = Normal (mkCreatePullRequestResult
                      42 "https://github.com/acme/widgets/pull/42"
                      "https://api.github.com/repos/acme/widgets/pulls/42"
                      state_merged "feature" "main")
  /\ fetchCount w' = 3
  /\ console w' = [ Warn "Failed to add labels to PR #42: 422" [];
                    Warn "Failed to request reviewers for PR #42:"
                         [newError "fetch failed"] ].
Proof. vm_compute; repeat split. Qed.

(** When GitHub refuses the pull request itself, the failure is classified
    by its status and thrown. *)
Example createPullRequest_refused :
  let w := mkWorld unit (fun _ _ _ => Responded Samples.unprocessable) 0
                   (fun _ _ => Normal "t") 0 [] in
  fst (createPullRequest Samples.auth Samples.config w)
  = Throw (VError (ProviderError
      (mkProviderError "Failed to create PR: 422 Validation Failed" permanent
                       (Some 422%Z) (Some (PlainError "Error" "Validation Failed"))))).
Proof. reflexivity. Qed.

(** The three cases of the message-driven path, each at a message of its own. *)
Lemma fromFetchError_message_classification_witness :
  errorType (fromFetchError "m" (newError "Request TIMEOUT after 30s") None) = transient
  /\ errorType (fromFetchError "m" (newError "invalid credentials") None) = permanent
  /\ errorType (fromFetchError "m" (VString "fetch failed") None) = permanent.
Proof.
  split; [|split].
  - apply (proj1 (fromFetchError_message_classification
                    "m" (newError "Request TIMEOUT after 30s"))
                 (PlainError "Error" "Request TIMEOUT after 30s") "timeout" eq_refl).
    + simpl; tauto.
    + exists "Request ", "TIMEOUT", " after 30s"; split; [reflexivity|].
      vm_compute; tauto.
  - apply (proj1 (proj2 (fromFetchError_message_classification
                           "m" (newError "invalid credentials")))
                 (PlainError "Error" "invalid credentials") eq_refl).
    intros p Hp Hc.
    apply includes_toLowerCase in Hc; [|exact (transientSubstrings_lower p Hp)].
    simpl in Hp.
    repeat (destruct Hp as [<-|Hp]; [vm_compute in Hc; discriminate|]).
    exact Hp.
  - apply (proj2 (proj2 (fromFetchError_message_classification
                           "m" (VString "fetch failed")))).
    reflexivity.
Defined.

(** Two spellings of one message, and "network" inside "subnetworking". *)
Lemma isTransientNetworkError_case_insensitive_witness :
  isTransientNetworkError (newError "Socket TIMEOUT: upstream")
  = isTransientNetworkError (newError "socket timeout: UPSTREAM")
  /\ isTransientNetworkError (newError "subnetworking is disabled") = true
  /\ errorType (fromFetchError "m" (newError "subnetworking is disabled") None)
     = transient.
Proof.
  split.
  - apply (proj1 (isTransientNetworkError_case_insensitive
                    (PlainError "Error" "Socket TIMEOUT: upstream")
                    (PlainError "Error" "socket timeout: UPSTREAM"))).
    vm_compute; tauto.
  - apply (proj2 (isTransientNetworkError_case_insensitive
                    (PlainError "Error" "subnetworking is disabled")
                    (PlainError "Error" ""))
                 "sub" "network" "ing is disabled" "m").
    + simpl; tauto.
    + reflexivity.
Defined.

(** An [Error] is kept as [cause]; a [TypeError] and an [Error] with the same
    message are classified alike. *)
Lemma fromFetchError_cause_witness :
  cause (fromFetchError "m" (newError "boom") (Some 500%Z))
  = Some (PlainError "Error" "boom")
  /\ errorType (fromFetchError "other"
                  (VError (PlainError "TypeError" "socket timeout")) None)
     = errorType (fromFetchError "m" (newError "socket timeout") None).
Proof.
  split.
  - apply (proj1 (proj2 (fromFetchError_cause "m" (newError "boom") (Some 500%Z)))).
    reflexivity.
  - apply (proj2 (proj2 (fromFetchError_cause "m" (newError "socket timeout") None))).
    right; reflexivity.
Defined.

(** The sample world: labels refused, reviewers rejected, result returned. *)
Lemma createPullRequest_best_effort_witness :
  exists w',
    createPullRequest Samples.auth Samples.config Samples.world
    = (Normal (resultOf Samples.mergedData), w')
    /\ console w' = [ Warn "Failed to add labels to PR #42: 422" [];
                      Warn "Failed to request reviewers for PR #42:"
                           [newError "fetch failed"] ].
Proof.
  destruct (createPullRequest_best_effort
              Samples.world Samples.auth Samples.config
              Samples.created Samples.mergedData eq_refl eq_refl eq_refl)
    as (w' & Hrun & Hconsole & _).
  exists w'; split; [exact Hrun|].
  rewrite Hconsole; reflexivity.
Defined.

(** The sample world: token minting times out, the failure is [transient]. *)
Lemma generatePushAuth_errors_witness :
  exists (msg : string) w',
    generatePushAuth (createGitHubProvider unit (Some tt)) Samples.world
    = (Throw (VError (ProviderError
         (fromFetchError msg (newError "connect ETIMEDOUT 140.82.112.5:443") None))),
       w')
    /\ mintCount w' = 1
    /\ httpStatus (fromFetchError msg (newError "connect ETIMEDOUT 140.82.112.5:443") None)
       = None
    /\ errorType (fromFetchError msg (newError "connect ETIMEDOUT 140.82.112.5:443") None)
       = transient.
Proof.
  exact (proj2 (generatePushAuth_errors Samples.world) tt
               (newError "connect ETIMEDOUT 140.82.112.5:443") eq_refl).
Defined.

(** The sample world: GitHub answers "closed" and merged, the result is merged. *)
Lemma createPullRequest_state_witness :
  exists (result : CreatePullRequestResult) w',
    createPullRequest Samples.auth Samples.config Samples.world = (Normal result, w')
    /\ state result = state_merged.
Proof.
  destruct (createPullRequest_state
              Samples.world Samples.auth Samples.config
              Samples.created Samples.mergedData eq_refl eq_refl eq_refl)
    as (result & w' & Hrun & _ & Hmerged & _).
  exists result, w'; split; [exact Hrun|].
  apply Hmerged; reflexivity.
Defined.

(* ================================================================== *)
(** * Further properties of the provider *)

Import Repository Measures.

(** ** How the three operations run, case by case *)

Section Runs.

Context {AppConfig : Type}.
Implicit Types (w : World AppConfig) (auth : SourceControlAuthContext)
         (config : CreatePullRequestConfig).

Lemma createPullRequest_run_rejected w auth config (v : JsValue) :
  network w (fetchCount w) (pullsUrl (repository config)) (pullRequestInit auth config)
  = Rejected v ->
  createPullRequest auth config w = (Throw v, afterFetch w).
Proof.
  intros Hnet; unfold createPullRequest.
  apply bind_throw; unfold fetchWithTimeout; now rewrite Hnet.
Qed.

Lemma createPullRequest_run_not_ok w auth config (resp : Response) :
  network w (fetchCount w) (pullsUrl (repository config)) (pullRequestInit auth config)
  = Responded resp ->
  ok resp = false ->
  createPullRequest auth config w
  = match text resp with
    | Normal body =>
        (Throw (VError (ProviderError
           (fromFetchError
              ("Failed to create PR: " ++ numberToString (status resp) ++ " " ++ body)
              (newError body) (Some (status resp))))),
         afterFetch w)
    | Throw v => (Throw v, afterFetch w)
    end.
Proof.
  intros Hnet Hok; unfold createPullRequest.
  rewrite (bind_normal _ _ w resp (afterFetch w))
    by (unfold fetchWithTimeout; rewrite Hnet; reflexivity).
  rewrite Hok; cbn [negb].
  unfold bind, await, throw.
  destruct (text resp); reflexivity.
Qed.

Lemma createPullRequest_run_unreadable w auth config (resp : Response) (v : JsValue) :
  network w (fetchCount w) (pullsUrl (repository config)) (pullRequestInit auth config)
  = Responded resp ->
  ok resp = true ->
  json resp = Throw v ->
  createPullRequest auth config w = (Throw v, afterFetch w).
Proof.
  intros Hnet Hok Hjson; unfold createPullRequest.
  rewrite (bind_normal _ _ w resp (afterFetch w))
    by (unfold fetchWithTimeout; rewrite Hnet; reflexivity).
  rewrite Hok; cbn [negb].
  apply bind_throw; unfold await; now rewrite Hjson.
Qed.

Variable repositoryJson : Response -> Completion RepositoryData.

(** [getRepository] in full: what it comes to, by what its one request
    comes to. *)
Lemma getRepository_run w auth (config : GetRepositoryConfig) :
  getRepository repositoryJson auth config w
  = (match network w (fetchCount w) (repositoryUrl config) (repositoryInit auth) with
     | Rejected v => Throw v
     | Responded resp =>
         if ok resp
         then match repositoryJson resp with
              | Normal data => Normal (infoOf data)
              | Throw v => Throw v
              end
         else match text resp with
              | Normal body =>
                  Throw (VError (ProviderError
                    (fromFetchError
                       ("Failed to get repository: " ++ numberToString (status resp)
                          ++ " " ++ body)
                       (newError body) (Some (status resp)))))
              | Throw v => Throw v
              end
     end,
     afterFetch w).
Proof.
  unfold getRepository, bind, fetchWithTimeout, await, throw, ret.
  fold (afterFetch w).
  destruct (network w (fetchCount w) _ _) as [resp|v]; [|reflexivity].
  destruct (ok resp); cbn [negb].
  - destruct (repositoryJson resp); reflexivity.
  - destruct (text resp); reflexivity.
Qed.

Lemma generatePushAuth_run (this : GitHubSourceControlProvider AppConfig) w :
  generatePushAuth this w
  = match appConfig this with
    | None =>
        (Throw (VError (ProviderError
           (mkProviderError "GitHub App not configured - cannot generate push auth"
                            permanent None None))), w)
    | Some cfg =>
        (match tokenMinter w (mintCount w) cfg with
         | Normal tok => Normal (mkGitPushAuthContext "app" tok)
         | Throw v =>
             Throw (VError (ProviderError
               (fromFetchError
                  (tokenFailurePrefix
                     ++ match asError v with
                        | Some e => errorMessage e
                        | None => toString v
                        end)
                  v None)))
         end,
         mkWorld AppConfig (network w) (fetchCount w) (tokenMinter w)
                 (S (mintCount w)) (console w))
    end.
Proof.
  unfold generatePushAuth.
  destruct (appConfig this) as [cfg|]; [|reflexivity].
  unfold tryCatch, bind, generateInstallationToken, throw, ret.
  destruct (tokenMinter w (mintCount w) cfg); reflexivity.
Qed.

Lemma requestsFor_requested (l : option (list string)) :
  requestsFor l = if requested l then 1 else 0.
Proof. destruct l as [[|x l]|]; reflexivity. Qed.

Lemma status_transient_iff (m : string) (e : JsValue) (s : Z) :
  errorType (fromFetchError m e (Some s)) = transient <-> In s transientStatuses.
Proof.
  rewrite errorType_status, errorType_transient_iff; apply isTransientStatus_iff.
Qed.

End Runs.

(** ** [getRepository] *)

Section GetRepositoryFacts.

Context {AppConfig : Type}.
Variable repositoryJson : Response -> Completion RepositoryData.
Implicit Types (w : World AppConfig) (auth : SourceControlAuthContext)
         (config : GetRepositoryConfig).

(** X1.  When GitHub answers [ok] and the body reads as repository data,
    [getRepository] returns the repository with [owner.login], [name],
    [full_name], [default_branch], [private] and [id] as its six fields,
    after one request and without logging. *)
Theorem getRepository_success w auth config (resp : Response) (data : RepositoryData) :
  network w (fetchCount w) (repositoryUrl config) (repositoryInit auth) = Responded resp ->
  ok resp = true ->
  repositoryJson resp = Normal data ->
  exists (info : RepositoryInfo) w',
    getRepository repositoryJson auth config w = (Normal info, w')
    /\ info_owner info = data_owner_login data
    /\ info_name info = data_name data
    /\ fullName info = data_full_name data
    /\ defaultBranch info = data_default_branch data
    /\ isPrivate info = data_private data
    /\ providerRepoId info = data_id data
    /\ fetchCount w' = S (fetchCount w)
    /\ console w' = console w.
Proof.
  intros Hnet Hok Hjson.
  exists (infoOf data), (afterFetch w).
  rewrite getRepository_run, Hnet, Hok, Hjson.
  repeat split.
Qed.

(** X2.  When GitHub answers with a status that is not [ok], [getRepository]
    throws a classified error: its message names the status and the body,
    its [httpStatus] is the status, its [cause] is an [Error] made of the
    body, and it is [transient] exactly for 429, 502, 503 and 504, whatever
    the body says. *)
Theorem getRepository_not_ok w auth config (resp : Response) (body : string) :
  network w (fetchCount w) (repositoryUrl config) (repositoryInit auth) = Responded resp ->
  ok resp = false ->
  text resp = Normal body ->
  exists (e : SourceControlProviderError) w',
    getRepository repositoryJson auth config w = (Throw (VError (ProviderError e)), w')
    /\ message e
       = "Failed to get repository: " ++ numberToString (status resp) ++ " " ++ body
    /\ httpStatus e = Some (status resp)
    /\ cause e = Some (PlainError "Error" body)
    /\ (errorType e = transient <-> In (status resp) transientStatuses)
    /\ fetchCount w' = S (fetchCount w)
    /\ console w' = console w.
Proof.
  intros Hnet Hok Htext.
  eexists; exists (afterFetch w).
  rewrite getRepository_run, Hnet, Hok, Htext.
  split; [reflexivity|].
  repeat split; try apply status_transient_iff.
Qed.

(** X3.  A failure that is not an HTTP status is not classified by
    [getRepository]: the value that a rejected request, an unreadable error
    body or an unreadable repository body throws is thrown on as it is. *)
Theorem getRepository_unclassified w auth config (v : JsValue) :
  let outcome := network w (fetchCount w) (repositoryUrl config) (repositoryInit auth) in
  (outcome = Rejected v ->
   fst (getRepository repositoryJson auth config w) = Throw v)
  /\
  (forall resp, outcome = Responded resp -> ok resp = false -> text resp = Throw v ->
                fst (getRepository repositoryJson auth config w) = Throw v)
  /\
  (forall resp, outcome = Responded resp -> ok resp = true ->
                repositoryJson resp = Throw v ->
                fst (getRepository repositoryJson auth config w) = Throw v).
Proof.
  cbv zeta; rewrite getRepository_run; repeat split.
  - intros ->; reflexivity.
  - intros resp -> -> ->; reflexivity.
  - intros resp -> -> ->; reflexivity.
Qed.

(** X4.  In every world and whatever the outcome, [getRepository] sends
    exactly one request, logs nothing and asks for no token. *)
Theorem getRepository_frame w auth config :
  let w' := snd (getRepository repositoryJson auth config w) in
  fetchCount w' = S (fetchCount w)
  /\ console w' = console w
  /\ mintCount w' = mintCount w
  /\ network w' = network w
  /\ tokenMinter w' = tokenMinter w.
Proof.
  cbv zeta; rewrite getRepository_run; repeat split.
Qed.

End GetRepositoryFacts.

(** ** [createPullRequest]: failures, and what it asks of the world *)

Section CreatePullRequestFacts.

Context {AppConfig : Type}.
Implicit Types (w : World AppConfig) (auth : SourceControlAuthContext)
         (config : CreatePullRequestConfig).

(** X5.  When GitHub refuses the pull request with a status that is not
    [ok], [createPullRequest] throws a classified error ([transient] exactly
    for 429, 502, 503 and 504; [httpStatus] the status; [cause] an [Error]
    made of the body) and stops there: no label or reviewer request is sent
    and nothing is logged. *)
Theorem createPullRequest_not_ok w auth config (resp : Response) (body : string) :
  network w (fetchCount w) (pullsUrl (repository config)) (pullRequestInit auth config)
  = Responded resp ->
  ok resp = false ->
  text resp = Normal body ->
  exists (e : SourceControlProviderError) w',
    createPullRequest auth config w = (Throw (VError (ProviderError e)), w')
    /\ message e = "Failed to create PR: " ++ numberToString (status resp) ++ " " ++ body
    /\ httpStatus e = Some (status resp)
    /\ cause e = Some (PlainError "Error" body)
    /\ (errorType e = transient <-> In (status resp) transientStatuses)
    /\ fetchCount w' = S (fetchCount w)
    /\ console w' = console w.
Proof.
  intros Hnet Hok Htext.
  eexists; exists (afterFetch w).
  rewrite (createPullRequest_run_not_ok w auth config resp Hnet Hok), Htext.
  split; [reflexivity|].
  repeat split; try apply status_transient_iff.
Qed.

(** X6.  A failure that is not an HTTP status is not classified by
    [createPullRequest]: the value that a rejected request, an unreadable
    error body or an unreadable pull-request body throws is thrown on as it
    is, after the one request. *)
Theorem createPullRequest_unclassified w auth config (v : JsValue) :
  let outcome :=
    network w (fetchCount w) (pullsUrl (repository config)) (pullRequestInit auth config) in
  (outcome = Rejected v ->
   createPullRequest auth config w = (Throw v, afterFetch w))
  /\
  (forall resp, outcome = Responded resp -> ok resp = false -> text resp = Throw v ->
                createPullRequest auth config w = (Throw v, afterFetch w))
  /\
  (forall resp, outcome = Responded resp -> ok resp = true -> json resp = Throw v ->
                createPullRequest auth config w = (Throw v, afterFetch w)).
Proof.
  cbv zeta; repeat split.
  - apply createPullRequest_run_rejected.
  - intros resp Hnet Hok Htext.
    now rewrite (createPullRequest_run_not_ok w auth config resp Hnet Hok), Htext.
  - intros resp; apply createPullRequest_run_unreadable.
Qed.

Lemma afterCreate_measures w auth config (data : PullRequestData) :
  let w' := afterCreate w auth config data in
  fetchCount w'
  = fetchCount w + 1 + requestsFor (labels config) + requestsFor (reviewers config)
  /\ mintCount w' = mintCount w
  /\ network w' = network w
  /\ tokenMinter w' = tokenMinter w
  /\ exists added, console w' = (console w ++ added)%list
                   /\ List.length added
                      <= requestsFor (labels config) + requestsFor (reviewers config).
Proof.
  cbv zeta; unfold afterCreate; cbv zeta.
  rewrite !requestsFor_requested.
  destruct (requested (labels config)), (requested (reviewers config));
    cbn [fetchCount mintCount network tokenMinter console afterBestEffort afterFetch];
    (repeat split; [lia|]).
  - eexists; split; [rewrite <- app_assoc; reflexivity|].
    rewrite length_app, !warningsOf_length.
    repeat match goal with |- context [failed ?o] => destruct (failed o) end; simpl; lia.
  - eexists; split; [reflexivity|].
    rewrite warningsOf_length.
    match goal with |- context [failed ?o] => destruct (failed o) end; simpl; lia.
  - eexists; split; [reflexivity|].
    rewrite warningsOf_length.
    match goal with |- context [failed ?o] => destruct (failed o) end; simpl; lia.
  - exists []; split; [now rewrite app_nil_r|simpl; lia].
Qed.

(** X7.  When the pull request is created, [createPullRequest] sends one
    request more for the labels only if the list holds a label, and one more
    for the reviewers only if the list holds a reviewer: an absent list and
    an empty list send nothing.  It never asks for a token. *)
Theorem createPullRequest_request_count w auth config
        (resp : Response) (data : PullRequestData) :
  network w (fetchCount w) (pullsUrl (repository config)) (pullRequestInit auth config)
  = Responded resp ->
  ok resp = true ->
  json resp = Normal data ->
  exists w',
    createPullRequest auth config w = (Normal (resultOf data), w')
    /\ fetchCount w'
       = fetchCount w + 1 + requestsFor (labels config) + requestsFor (reviewers config)
    /\ mintCount w' = mintCount w
    /\ (elements (labels config) = [] -> elements (reviewers config) = [] ->
        fetchCount w' = S (fetchCount w) /\ console w' = console w).
Proof.
  intros Hnet Hok Hjson.
  exists (afterCreate w auth config data).
  split; [exact (createPullRequest_success w auth config resp data Hnet Hok Hjson)|].
  destruct (afterCreate_measures w auth config data)
    as (Hfetch & Hmint & _ & _ & added & Hconsole & Hlen).
  split; [exact Hfetch|]; split; [exact Hmint|].
  intros Hl Hr; unfold requestsFor in Hfetch, Hlen; rewrite Hl, Hr in Hfetch, Hlen.
  split; [lia|].
  destruct added; [now rewrite Hconsole, app_nil_r|simpl in Hlen; lia].
Qed.

(** X8.  In every world and whatever the outcome, [createPullRequest] sends
    at least one and at most three requests, adds at most two entries to the
    console and removes none, and neither asks for a token nor changes what
    the world answers. *)
Theorem createPullRequest_frame w auth config :
  let w' := snd (createPullRequest auth config w) in
  fetchCount w < fetchCount w' <= fetchCount w + 3
  /\ (exists added, console w' = (console w ++ added)%list /\ List.length added <= 2)
  /\ mintCount w' = mintCount w
  /\ network w' = network w
  /\ tokenMinter w' = tokenMinter w.
Proof.
  cbv zeta.
  assert (Hstop : forall o, createPullRequest auth config w = (o, afterFetch w) ->
    fetchCount w < fetchCount (snd (createPullRequest auth config w)) <= fetchCount w + 3
    /\ (exists added, console (snd (createPullRequest auth config w))
                      = (console w ++ added)%list /\ List.length added <= 2)
    /\ mintCount (snd (createPullRequest auth config w)) = mintCount w
    /\ network (snd (createPullRequest auth config w)) = network w
    /\ tokenMinter (snd (createPullRequest auth config w)) = tokenMinter w).
  { intros o ->; simpl; repeat split; try lia.
    exists []; split; [now rewrite app_nil_r|simpl; lia]. }
  destruct (network w (fetchCount w) (pullsUrl (repository config))
                    (pullRequestInit auth config)) as [resp|v] eqn:Hnet.
  - destruct (ok resp) eqn:Hok.
    + destruct (json resp) as [data|v] eqn:Hjson.
      * rewrite (createPullRequest_success w auth config resp data Hnet Hok Hjson).
        cbn [snd].
        destruct (afterCreate_measures w auth config data)
          as (Hfetch & Hmint & Hn & Ht & added & Hconsole & Hlen).
        assert (requestsFor (labels config) <= 1)
          by (rewrite requestsFor_requested; destruct (requested _); lia).
        assert (requestsFor (reviewers config) <= 1)
          by (rewrite requestsFor_requested; destruct (requested _); lia).
        repeat split; auto; try lia.
        exists added; split; [exact Hconsole|lia].
      * eapply Hstop, createPullRequest_run_unreadable; eauto.
    + pose proof (createPullRequest_run_not_ok w auth config resp Hnet Hok) as Hrun.
      destruct (text resp); exact (Hstop _ Hrun).
  - eapply Hstop, createPullRequest_run_rejected; eauto.
Qed.

End CreatePullRequestFacts.

(** ** The request body, and the best-effort requests on their own *)

Section RequestFacts.

Context {AppConfig : Type}.
Implicit Types (w : World AppConfig).

(** X9.  The body of the request that creates a pull request carries a
    [draft] property only when the configuration asks for a draft, and then
    it is [true]: a [draft] that is absent or [false] sends no property at
    all.  The four properties [title], [body], [head], [base] always come
    first. *)
Theorem requestBody_draft (config : CreatePullRequestConfig) :
  (In "draft" (map fst (requestBody config)) <-> draft config = Some true)
  /\ (forall v, In ("draft", v) (requestBody config) -> v = JBool true)
  /\ firstn 4 (requestBody config)
     = [ ("title", JString (title config)); ("body", JString (cfg_body config));
         ("head", JString (sourceBranch config));
         ("base", JString (targetBranch config)) ].
Proof.
  unfold requestBody.
  destruct (draft config) as [[|]|]; simpl; (split; [|split]);
    try reflexivity;
    try (intros v H; intuition congruence).
  - split; [reflexivity|auto 10].
  - split; [intros H; intuition discriminate|discriminate].
  - split; [intros H; intuition discriminate|discriminate].
Qed.

(** X10.  On their own and in every world, [addLabels] and
    [requestReviewers] complete without throwing after exactly one request,
    ask for no token, and add one console entry when the request failed and
    none when it did not. *)
Theorem best_effort_requests_never_throw w (tok o r : string) (n : Z) (l : list string) :
  (exists w',
      addLabels tok o r n l w = (Normal tt, w')
      /\ fetchCount w' = S (fetchCount w)
      /\ mintCount w' = mintCount w
      /\ exists added,
          console w' = (console w ++ added)%list
          /\ List.length added
             = if failed (network w (fetchCount w) (labelsUrl o r n) (labelsInit tok l))
               then 1 else 0)
  /\
  (exists w',
      requestReviewers tok o r n l w = (Normal tt, w')
      /\ fetchCount w' = S (fetchCount w)
      /\ mintCount w' = mintCount w
      /\ exists added,
          console w' = (console w ++ added)%list
          /\ List.length added
             = if failed (network w (fetchCount w) (reviewersUrl o r n)
                                  (reviewersInit tok l))
               then 1 else 0).
Proof.
  split.
  - eexists; split; [apply addLabels_run|].
    repeat split.
    eexists; split; [reflexivity|apply warningsOf_length].
  - eexists; split; [apply requestReviewers_run|].
    repeat split.
    eexists; split; [reflexivity|apply warningsOf_length].
Qed.

End RequestFacts.

(** ** [generatePushAuth] *)

Section GeneratePushAuthFacts.

Context {AppConfig : Type}.
Implicit Types (w : World AppConfig) (this : GitHubSourceControlProvider AppConfig).

(** X11.  With an [appConfig] and a token minted, [generatePushAuth]
    returns that token with [authType] "app", after one call of the minting
    and without any request or console entry. *)
Theorem generatePushAuth_success w (cfg : AppConfig) (tok : string) :
  tokenMinter w (mintCount w) cfg = Normal tok ->
  exists w',
    generatePushAuth (createGitHubProvider AppConfig (Some cfg)) w
    = (Normal (mkGitPushAuthContext "app" tok), w')
    /\ mintCount w' = S (mintCount w)
    /\ fetchCount w' = fetchCount w
    /\ console w' = console w.
Proof.
  intros Hmint; eexists.
  rewrite generatePushAuth_run; simpl; rewrite Hmint.
  repeat split.
Qed.

(** On a world read at its types, [generatePushAuth] settles as
    [Untyped.generatePushAuth] does, and no [TypeError] is raised. *)
Lemma generatePushAuth_on_typed this w :
  match Untyped.generatePushAuth
          (appConfig this)
          (fun cfg => Untyped.mintedOf (tokenMinter w (mintCount w) cfg)) with
  | Untyped.Resolved ctx => fst (generatePushAuth this w) = Normal ctx
  | Untyped.RejectedWith c =>
      exists e, fst (generatePushAuth this w) = Throw (VError (ProviderError e))
                /\ c = Untyped.untypedOf e
  | Untyped.RejectedTypeError => False
  end.
Proof.
  rewrite generatePushAuth_run; unfold Untyped.generatePushAuth.
  destruct (appConfig this) as [cfg|]; [|eexists; split; reflexivity].
  destruct (tokenMinter w (mintCount w) cfg) as [tok|v]; [reflexivity|].
  destruct v; eexists; split; reflexivity.
Qed.


(** X13.  When the minting throws, the error of [generatePushAuth] carries
    the fixed prefix followed by the message of the thrown [Error], which
    becomes its [cause]; for a thrown value that is not an [Error] the
    prefix is followed by its string form, there is no [cause], and the
    error is [permanent] whatever that string says. *)
Theorem generatePushAuth_failure_details w (cfg : AppConfig) (v : JsValue) :
  tokenMinter w (mintCount w) cfg = Throw v ->
  exists (e : SourceControlProviderError) w',
    generatePushAuth (createGitHubProvider AppConfig (Some cfg)) w
    = (Throw (VError (ProviderError e)), w')
    /\ cause e = asError v
    /\ (forall err, v = VError err ->
                    message e = tokenFailurePrefix ++ errorMessage err)
    /\ (asError v = None ->
        message e = tokenFailurePrefix ++ toString v /\ errorType e = permanent).
Proof.
  intros Hmint; eexists; eexists.
  rewrite generatePushAuth_run; simpl; rewrite Hmint.
  split; [reflexivity|].
  split; [reflexivity|]; split.
  - intros err ->; reflexivity.
  - intros Hnone; simpl; rewrite Hnone; split; [reflexivity|].
    unfold isTransientNetworkError; now rewrite Hnone.
Qed.

(** X14.  In every world [generatePushAuth] sends no request and logs
    nothing; it calls the minting once when the provider has an [appConfig]
    and not at all when it has none. *)
Theorem generatePushAuth_frame this w :
  let w' := snd (generatePushAuth this w) in
  fetchCount w' = fetchCount w
  /\ console w' = console w
  /\ network w' = network w
  /\ tokenMinter w' = tokenMinter w
  /\ mintCount w' = mintCount w + match appConfig this with
                                  | Some _ => 1
                                  | None => 0
                                  end.
Proof.
  cbv zeta; rewrite generatePushAuth_run.
  destruct (appConfig this); simpl; repeat split; lia.
Qed.

End GeneratePushAuthFacts.

(** ** Classifying an error again *)

Section Reclassification.

Lemma append_assoc (a b c : string) : (a ++ b) ++ c = a ++ b ++ c.
Proof.
  induction a as [|x a IH]; simpl; [reflexivity|now rewrite IH].
Qed.

Lemma includes_embedded (s pre post sub : string) :
  includes s sub = true -> includes (pre ++ s ++ post) sub = true.
Proof.
  intros H; destruct (includes_inv _ _ H) as (a & b & ->).
  replace (pre ++ (a ++ sub ++ b) ++ post) with ((pre ++ a) ++ sub ++ (b ++ post))
    by (now rewrite !append_assoc).
  apply includes_app.
Qed.

Lemma existsb_agree {A : Type} (f g : A -> bool) (l : list A) :
  (forall x, In x l -> f x = g x) -> existsb f l = existsb g l.
Proof.
  induction l as [|x l IH]; intros H; simpl; [reflexivity|].
  rewrite (H x (or_introl eq_refl)), IH; [reflexivity|].
  intros y Hy; apply H; now right.
Qed.

Lemma includes_after_tokenFailurePrefix (x p : string) :
  In p transientSubstrings ->
  includes (toLowerCase tokenFailurePrefix ++ x) p = includes x p.
Proof.
  unfold transientSubstrings; simpl In.
  intros H; repeat (destruct H as [<-|H]; [reflexivity|]); contradiction.
Qed.

(** X15.  The message test is monotone in containment: if an [Error] is a
    transient network error, so is every [Error] whose message holds the
    message of the first somewhere inside. *)
Theorem isTransientNetworkError_monotone (e e' : JsError) (pre post : string) :
  errorMessage e' = pre ++ errorMessage e ++ post ->
  isTransientNetworkError (VError e) = true ->
  isTransientNetworkError (VError e') = true.
Proof.
  intros Hm; rewrite !isTransientNetworkError_existsb, Hm, !toLowerCase_app.
  intros H; apply existsb_exists in H as (p & Hp & Hi).
  apply existsb_exists; exists p; split; [exact Hp|].
  now apply includes_embedded.
Qed.

(** X16.  Classifying the error of [generatePushAuth] again, with no
    status, gives the classification it already has when the minting threw
    an [Error]: the prefix that is put before the message neither hides nor
    adds a transient substring. *)
Theorem generatePushAuth_reclassification {AppConfig : Type} (w : World AppConfig)
        (cfg : AppConfig) (err : JsError) :
  tokenMinter w (mintCount w) cfg = Throw (VError err) ->
  exists (e : SourceControlProviderError) w',
    generatePushAuth (createGitHubProvider AppConfig (Some cfg)) w
    = (Throw (VError (ProviderError e)), w')
    /\ isTransientNetworkError (VError (ProviderError e))
       = isTransientNetworkError (VError err)
    /\ forall m, errorType (fromFetchError m (VError (ProviderError e)) None)
                 = errorType e.
Proof.
  intros Hmint; eexists; eexists.
  rewrite generatePushAuth_run.
  unfold createGitHubProvider; cbn [appConfig]; rewrite Hmint; cbn [asError].
  split; [reflexivity|].
  assert (H : isTransientNetworkError
                (VError (ProviderError
                   (fromFetchError (tokenFailurePrefix ++ errorMessage err)
                                   (VError err) None)))
              = isTransientNetworkError (VError err)).
  { rewrite !isTransientNetworkError_existsb.
    cbn [errorMessage message fromFetchError].
    rewrite toLowerCase_app.
    apply existsb_agree; intros p Hp.
    now apply includes_after_tokenFailurePrefix. }
  split; [exact H|].
  intros m; rewrite !errorType_no_status; now rewrite H.
Qed.

End Reclassification.

(** ** The URLs of a repository *)

Section UrlFacts.

Lemma append_inv_head (p a b : string) : p ++ a = p ++ b -> a = b.
Proof.
  induction p as [|c p IH]; simpl; intros H; [exact H|].
  injection H as H; auto.
Qed.

Lemma length_append (a b : string) :
  String.length (a ++ b) = String.length a + String.length b.
Proof.
  induction a as [|c a IH]; simpl; [reflexivity|now rewrite IH].
Qed.

Lemma append_inv_tail (a b c : string) : a ++ c = b ++ c -> a = b.
Proof.
  revert b; induction a as [|x a IH]; intros [|y b] H; simpl in H.
  - reflexivity.
  - apply (f_equal String.length) in H; simpl in H.
    rewrite length_append in H; lia.
  - apply (f_equal String.length) in H; simpl in H.
    rewrite length_append in H; lia.
  - injection H as -> H; f_equal; auto.
Qed.

(** A string without "/" followed by "/" determines both parts. *)
Lemma first_slash_unique (a b x y : string) :
  slashFree a -> slashFree b ->
  a ++ "/" ++ x = b ++ "/" ++ y -> a = b /\ x = y.
Proof.
  revert b; induction a as [|c a IH]; intros [|d b] Ha Hb H; simpl in *.
  - injection H as ->; auto.
  - injection H as <- _; destruct Hb as [Hb _]; now elim Hb.
  - injection H as -> _; destruct Ha as [Ha _]; now elim Ha.
  - injection H as -> H.
    destruct (IH b (proj2 Ha) (proj2 Hb) H) as [-> ->]; auto.
Qed.

(** X17.  Two repositories whose owners hold no "/" have the same pulls
    URL, or the same metadata URL, only if they are the same repository. *)
Theorem repository_urls_injective :
  (forall r1 r2 : RepositoryRef,
      slashFree (owner r1) -> slashFree (owner r2) ->
      pullsUrl r1 = pullsUrl r2 -> r1 = r2)
  /\
  (forall c1 c2 : GetRepositoryConfig,
      slashFree (repo_owner c1) -> slashFree (repo_owner c2) ->
      repositoryUrl c1 = repositoryUrl c2 -> c1 = c2).
Proof.
  split.
  - intros [o1 n1] [o2 n2] H1 H2 H; unfold pullsUrl in H; simpl owner in *;
      simpl name in *.
    apply append_inv_head, append_inv_head in H.
    destruct (first_slash_unique _ _ _ _ H1 H2 H) as [-> Hn].
    now apply append_inv_tail in Hn as ->.
  - intros [o1 n1] [o2 n2] H1 H2 H; unfold repositoryUrl in H;
      simpl repo_owner in *; simpl repo_name in *.
    apply append_inv_head, append_inv_head in H.
    now destruct (first_slash_unique _ _ _ _ H1 H2 H) as [-> ->].
Qed.

(** The request body of a draft, and of a pull request whose [draft] is
    [false]. *)
Example requestBody_examples :
  map fst (requestBody MoreSamples.draftConfig) = ["title"; "body"; "head"; "base"; "draft"]
  /\ map fst (requestBody MoreSamples.plainConfig) = ["title"; "body"; "head"; "base"].
Proof. split; reflexivity. Qed.

(** Owners are not escaped: with a "/" in the owner, two different
    repositories share their URL. *)
Example pullsUrl_not_escaped :
  pullsUrl (mkRepositoryRef "acme/tools" "widgets")
  = pullsUrl (mkRepositoryRef "acme" "tools/widgets").
Proof. reflexivity. Qed.

End UrlFacts.

(** ** The further properties at concrete inputs *)

Section CoverageWitnesses.

Import MoreSamples.

(** [acme/widgets] is read from an [ok] answer. *)
Lemma getRepository_success_witness :
  exists (info : RepositoryInfo) w',
    getRepository readWidgets Samples.auth repoConfig okWorld = (Normal info, w')
    /\ info_owner info = "acme"
    /\ info_name info = "widgets"
    /\ fullName info = "acme/widgets"
    /\ defaultBranch info = "main"
    /\ isPrivate info = true
    /\ providerRepoId info = 1296269%Z
    /\ fetchCount w' = 1
    /\ console w' = [].
Proof.
  exact (getRepository_success readWidgets okWorld Samples.auth repoConfig
                               Samples.created widgets eq_refl eq_refl eq_refl).
Defined.

(** A 503 whose body says nothing of a network is [transient]. *)
Lemma getRepository_not_ok_witness :
  exists (e : SourceControlProviderError) w',
    getRepository readWidgets Samples.auth repoConfig
                  (constWorld (Responded unavailable) (Normal "t"))
    = (Throw (VError (ProviderError e)), w')
    /\ message e = "Failed to get repository: 503 Service Unavailable"
    /\ httpStatus e = Some 503%Z
    /\ cause e = Some (PlainError "Error" "Service Unavailable")
    /\ (errorType e = transient <-> In 503%Z transientStatuses)
    /\ fetchCount w' = 1
    /\ console w' = [].
Proof.
  exact (getRepository_not_ok readWidgets
           (constWorld (Responded unavailable) (Normal "t"))
           Samples.auth repoConfig unavailable "Service Unavailable"
           eq_refl eq_refl eq_refl).
Defined.

(** A rejected request, a broken error body and a body that does not parse. *)
Lemma getRepository_unclassified_witness :
  fst (getRepository readWidgets Samples.auth repoConfig rejecting)
  = Throw (newError "fetch failed")
  /\ fst (getRepository readWidgets Samples.auth repoConfig
                        (constWorld (Responded brokenBody) (Normal "t")))
     = Throw (newError "body stream already read")
  /\ fst (getRepository unreadable Samples.auth repoConfig okWorld)
     = Throw (newError "Unexpected end of JSON input").
Proof.
  split; [|split].
  - apply (proj1 (getRepository_unclassified readWidgets rejecting Samples.auth
                    repoConfig (newError "fetch failed"))).
    reflexivity.
  - apply (proj1 (proj2 (getRepository_unclassified readWidgets
                    (constWorld (Responded brokenBody) (Normal "t")) Samples.auth
                    repoConfig (newError "body stream already read"))) brokenBody);
      reflexivity.
  - apply (proj2 (proj2 (getRepository_unclassified unreadable okWorld Samples.auth
                    repoConfig (newError "Unexpected end of JSON input")))
                 Samples.created);
      reflexivity.
Defined.

(** A 422 is [permanent]: 422 is none of the four statuses. *)
Lemma createPullRequest_not_ok_witness :
  exists (e : SourceControlProviderError) w',
    createPullRequest Samples.auth Samples.config
                      (constWorld (Responded Samples.unprocessable) (Normal "t"))
    = (Throw (VError (ProviderError e)), w')
    /\ message e = "Failed to create PR: 422 Validation Failed"
    /\ httpStatus e = Some 422%Z
    /\ cause e = Some (PlainError "Error" "Validation Failed")
    /\ (errorType e = transient <-> In 422%Z transientStatuses)
    /\ fetchCount w' = 1
    /\ console w' = [].
Proof.
  exact (createPullRequest_not_ok
           (constWorld (Responded Samples.unprocessable) (Normal "t"))
           Samples.auth Samples.config Samples.unprocessable "Validation Failed"
           eq_refl eq_refl eq_refl).
Defined.

Lemma createPullRequest_unclassified_witness :
  fst (createPullRequest Samples.auth Samples.config rejecting)
  = Throw (newError "fetch failed")
  /\ fst (createPullRequest Samples.auth Samples.config
                            (constWorld (Responded brokenBody) (Normal "t")))
     = Throw (newError "body stream already read")
  /\ fst (createPullRequest Samples.auth Samples.config
                            (constWorld (Responded createdUnreadable) (Normal "t")))
     = Throw (newError "Unexpected end of JSON input").
Proof.
  split; [|split].
  - rewrite (proj1 (createPullRequest_unclassified rejecting Samples.auth
                      Samples.config (newError "fetch failed")) eq_refl).
    reflexivity.
  - rewrite (proj1 (proj2 (createPullRequest_unclassified
                      (constWorld (Responded brokenBody) (Normal "t")) Samples.auth
                      Samples.config (newError "body stream already read")))
                   brokenBody eq_refl eq_refl eq_refl).
    reflexivity.
  - rewrite (proj2 (proj2 (createPullRequest_unclassified
                      (constWorld (Responded createdUnreadable) (Normal "t"))
                      Samples.auth Samples.config
                      (newError "Unexpected end of JSON input")))
                   createdUnreadable eq_refl eq_refl eq_refl).
    reflexivity.
Defined.

(** No labels and an empty list of reviewers: one request, nothing logged. *)
Lemma createPullRequest_request_count_witness :
  exists w',
    createPullRequest Samples.auth plainConfig okWorld
    = (Normal (resultOf Samples.mergedData), w')
    /\ fetchCount w' = 1
    /\ console w' = [].
Proof.
  destruct (createPullRequest_request_count okWorld Samples.auth plainConfig
              Samples.created Samples.mergedData eq_refl eq_refl eq_refl)
    as (w' & Hrun & _ & _ & Hplain).
  exists w'; split; [exact Hrun|].
  exact (Hplain eq_refl eq_refl).
Defined.

Lemma generatePushAuth_success_witness :
  exists w',
    generatePushAuth (createGitHubProvider unit (Some tt)) okWorld
    = (Normal (mkGitPushAuthContext "app" "ghs_abc"), w')
    /\ mintCount w' = 1
    /\ fetchCount w' = 0
    /\ console w' = [].
Proof.
  exact (generatePushAuth_success okWorld tt "ghs_abc" eq_refl).
Defined.

(** A thrown string that reads like a network failure is still [permanent]. *)
Lemma generatePushAuth_failure_details_witness :
  exists (e : SourceControlProviderError) w',
    generatePushAuth (createGitHubProvider unit (Some tt)) rejecting
    = (Throw (VError (ProviderError e)), w')
    /\ cause e = None
    /\ message e = "Failed to generate GitHub App token: fetch failed"
    /\ errorType e = permanent.
Proof.
  destruct (generatePushAuth_failure_details rejecting tt (VString "fetch failed")
              eq_refl)
    as (e & w' & Hrun & Hcause & _ & Hplain).
  exists e, w'; split; [exact Hrun|]; split; [exact Hcause|].
  exact (Hplain eq_refl).
Defined.

Lemma isTransientNetworkError_monotone_witness :
  isTransientNetworkError
    (newError "Failed to reach GitHub: connect ETIMEDOUT 140.82.112.5:443 (giving up)")
  = true.
Proof.
  apply (isTransientNetworkError_monotone
           (PlainError "Error" "connect ETIMEDOUT 140.82.112.5:443")
           (PlainError "Error"
              "Failed to reach GitHub: connect ETIMEDOUT 140.82.112.5:443 (giving up)")
           "Failed to reach GitHub: " " (giving up)");
    reflexivity.
Defined.

Lemma generatePushAuth_reclassification_witness :
  exists (e : SourceControlProviderError) w',
    generatePushAuth (createGitHubProvider unit (Some tt)) Samples.world
    = (Throw (VError (ProviderError e)), w')
    /\ isTransientNetworkError (VError (ProviderError e))
       = isTransientNetworkError (newError "connect ETIMEDOUT 140.82.112.5:443")
    /\ forall m, errorType (fromFetchError m (VError (ProviderError e)) None)
                 = errorType e.
Proof.
  exact (generatePushAuth_reclassification Samples.world tt
           (PlainError "Error" "connect ETIMEDOUT 140.82.112.5:443") eq_refl).
Defined.

Lemma repository_urls_injective_witness :
  mkRepositoryRef "acme" "tools/widgets" = mkRepositoryRef "acme" "tools/widgets"
  /\ repoConfig = mkGetRepositoryConfig "acme" "widgets".
Proof.
  split.
  - apply (proj1 repository_urls_injective); simpl;
      repeat split; try discriminate; reflexivity.
  - apply (proj2 repository_urls_injective); simpl;
      repeat split; try discriminate; reflexivity.
Defined.

End CoverageWitnesses.

(** ** The classifier on untyped values, at concrete inputs *)

(** An [Error] with the message 42 and the status 503; an object without a
    string form and no status; an [Error] "socket timeout" and no status. *)
Lemma fromFetchError_never_raises_witness :
  (exists r, Untyped.fromFetchError
               "m" (Untyped.OddError "Error" (Untyped.NsNumber 42)) (Some 503%Z)
             = Untyped.Returns r)
  /\ (exists r, Untyped.fromFetchError "m" Untyped.BareObject None = Untyped.Returns r)
  /\ (exists r, Untyped.fromFetchError "m" (Untyped.Typed (newError "socket timeout")) None
                = Untyped.Returns r
                /\ r = Untyped.untypedOf
                         (fromFetchError "m" (newError "socket timeout") None)).
Proof.
  split; [|split].
  - destruct (fromFetchError_never_raises
                "m" (Untyped.OddError "Error" (Untyped.NsNumber 42)) (Some 503%Z))
      as (r & Hrun & _); [left; discriminate|].
    exists r; exact Hrun.
  - destruct (fromFetchError_never_raises "m" Untyped.BareObject None)
      as (r & Hrun & _); [right; left; reflexivity|].
    exists r; exact Hrun.
  - destruct (fromFetchError_never_raises
                "m" (Untyped.Typed (newError "socket timeout")) None)
      as (r & Hrun & _ & _ & Htyped);
      [right; right; exists "socket timeout"; reflexivity|].
    exists r; split; [exact Hrun|exact (Htyped _ eq_refl)].
Defined.


(** The classifier of [Untyped] at the three kinds of value. *)
Example untyped_examples :
  Untyped.fromFetchError "m" (Untyped.OddError "Error" Untyped.NsUndefined) None
  = Untyped.RaisesTypeError
  /\ Untyped.fromFetchError "m" (Untyped.OddError "Error" Untyped.NsUndefined) (Some 404%Z)
     = Untyped.Returns
         (Untyped.mkClassified "m" permanent (Some 404%Z)
            (Some (Untyped.OddError "Error" Untyped.NsUndefined)))
  /\ Untyped.fromFetchError "m" Untyped.BareObject None
     = Untyped.Returns (Untyped.mkClassified "m" permanent None None)
  /\ Untyped.generatePushAuth
       (Some tt)
       (fun _ : unit => Untyped.MintThrew (Untyped.OddError "Error" (Untyped.NsNumber 42)))
     = Untyped.RejectedTypeError.
Proof. repeat split. Qed.
